(** * Aang air-quality service: the inference contract and the trainer pipeline

    A shallow embedding of [ml_model/api.py] (the Flask prediction service)
    and [ml_model/train_model.py] (the offline trainer), with the properties
    of the written specification stated over it.

    Python floats are IEEE binary64 numbers: Rocq's primitive [float].
    Python dicts are stdpp [gmap]s.  Exceptions are an explicit sum, and the
    calls that leave the repository (the float constructor, the scaler, the
    classifier, the learning library) are recorded in an event log, so that
    "before any processing" and "only on the training split" are statements
    about that log. *)

From Stdlib Require Import ZArith Floats Lia.
From stdpp Require Import gmap strings list fin_maps.

#[local] Set Warnings "-register-all,-inexact-float".
#[local] Open Scope Z_scope.

(** ** Python values, exceptions and the logging error monad *)

Module Py.

(** The exceptions that the modelled paths can raise.  [KeyError] carries
    the missing keys (a dict lookup names one, a pandas column selection
    names all that are absent); [LibraryError] is any exception raised
    inside a library object. *)
Inductive exn : Type :=
  | TypeError
  | ValueError
  | OverflowError
  | IndexError
  | KeyError (keys : list string)
  | BadRequest
  | LibraryError (msg : string).

Definition result (A : Type) : Type := exn + A.

(** What [request.get_json()] and [json.loads] produce: [None], [bool],
    [int], [float], [str], [list] and [dict]. *)
Inductive json : Type :=
  | JNull
  | JBool (b : bool)
  | JInt (z : Z)
  | JFloat (f : float)
  | JStr (s : string)
  | JArr (l : list json)
  | JObj (m : gmap string json).

(** A computation that appends to a log of events of type [E] and either
    raises or returns. *)
Definition M (E A : Type) : Type := list E * result A.

Definition ret {E A} (a : A) : M E A := ([], inr a).
Definition raise {E A} (e : exn) : M E A := ([], inl e).
Definition emit {E} (ev : E) : M E unit := ([ev], inr tt).
Definition lift {E A} (r : result A) : M E A := ([], r).

Definition bind {E A B} (c : M E A) (k : A -> M E B) : M E B :=
  match c with
  | (l1, inl e) => (l1, inl e)
  | (l1, inr a) => let (l2, r) := k a in (l1 ++ l2, r)
  end.

(** [try: c  except Exception as e: h e] with a handler that cannot raise. *)
Definition try_except {E A} (c : M E A) (h : exn -> A) : list E * A :=
  match c with
  | (l, inl e) => (l, h e)
  | (l, inr a) => (l, a)
  end.

(** [float(n)] for a Python [int]: round to nearest even, and
    [OverflowError] when the integer is too large for a binary64. *)
Definition float_of_int (z : Z) : result float :=
  match binary_normalize prec emax z 0 false with
  | S754_infinity _ => inl OverflowError
  | sf => inr (SF2Prim sf)
  end.

(** [xs[i]] on a Python list, with negative indices counted from the end. *)
Definition list_getitem {A} (xs : list A) (i : Z) : result A :=
  let n := Z.of_nat (length xs) in
  let j := if i <? 0 then i + n else i in
  if (j <? 0) || (n <=? j) then inl IndexError
  else match xs !! Z.to_nat j with
       | Some x => inr x
       | None => inl IndexError
       end.

(** The builtin [max] on a sequence of floats: [ValueError] on an empty
    sequence; otherwise the first item is kept until a later one compares
    strictly greater. *)
Definition max (xs : list float) : result float :=
  match xs with
  | [] => inl ValueError
  | x :: rest =>
      inr (fold_left (fun cur item => if PrimFloat.ltb cur item then item else cur) rest x)
  end.

(** [key in data]: a key test on a dict, an element test on a list, a
    substring test on a str, and [TypeError] on anything else. *)
Definition contains (data : json) (key : string) : result bool :=
  match data with
  | JObj m => inr (bool_decide (is_Some (m !! key)))
  | JArr l =>
      inr (existsb (fun v => match v with JStr s => String.eqb s key | _ => false end) l)
  | JStr s => inr (match String.index 0 key s with Some _ => true | None => false end)
  | JNull | JBool _ | JInt _ | JFloat _ => inl TypeError
  end.

(** [data[key]] with a str key. *)
Definition getitem (data : json) (key : string) : result json :=
  match data with
  | JObj m => match m !! key with
              | Some v => inr v
              | None => inl (KeyError [key])
              end
  | _ => inl TypeError
  end.

End Py.

Import Py.

(** The order of binary64 numbers, read off their specification: a number
    that is not NaN is a triple of integers, compared lexicographically. *)
Module FloatKey.

Definition key (f : spec_float) : option (Z * Z * Z) :=
  match f with
  | S754_nan => None
  | S754_zero _ => Some (0, 0, 0)
  | S754_infinity s => Some (if s then -2 else 2, 0, 0)
  | S754_finite s m e =>
      Some (if s then (-1, - e, - Z.pos m) else (1, e, Z.pos m))
  end.



End FloatKey.

Declare Scope py_scope.
Delimit Scope py_scope with py.
Notation "x <- c ;; k" := (Py.bind c (fun x => k))
  (at level 100, c at next level, right associativity) : py_scope.
Notation "c ;;; k" := (Py.bind c (fun _ => k))
  (at level 100, right associativity) : py_scope.
#[local] Open Scope py_scope.

(** ** The library objects stored in the bundle

    The scaler and the classifier are scikit-learn objects, not code of
    the repository.  The scaler is modelled on the library's documented
    behaviour; the classifier and the fitting routines stay abstract. *)

Module Sklearn.

Definition matrix : Type := list (list float).

(** A fitted [StandardScaler]: the per-feature mean and scale that the
    trainer prints as [scaler.mean_] and [scaler.scale_]. *)
Record StandardScaler : Type := {
  mean_ : list float;
  scale_ : list float
}.

(** One row through the scaler: [x -= mean_; x /= scale_]. *)
Fixpoint standardize (means scales row : list float) : list float :=
  match means, scales, row with
  | m :: means', s :: scales', x :: row' =>
      PrimFloat.div (PrimFloat.sub x m) s :: standardize means' scales' row'
  | _, _, _ => []
  end.

Definition valid_row (sc : StandardScaler) (row : list float) : bool :=
  (length row =? length (mean_ sc))%nat
  && (length row =? length (scale_ sc))%nat
  && forallb (fun x => negb (PrimFloat.is_infinity x)) row.

(** [scaler.transform(X)].  The library validates its input first and
    raises [ValueError] on a wrong number of features or an infinite
    entry (NaN is let through). *)
Definition transform (sc : StandardScaler) (X : matrix) : result matrix :=
  if forallb (valid_row sc) X
  then inr (map (standardize (mean_ sc) (scale_ sc)) X)
  else inl ValueError.

(** A fitted classifier, seen through the two methods the repository
    calls.  Both may raise. *)
Record Classifier : Type := {
  clf_predict : matrix -> result (list Z);
  clf_predict_proba : matrix -> result matrix
}.

(** A fitted [LabelEncoder]: class [i] is [classes_[i]]. *)
Record LabelEncoder : Type := {
  classes_ : list string
}.

End Sklearn.

Import Sklearn.

(** ** [ml_model/api.py] *)

Module Api.

(** The bundle dict as unpickled: a key is [None] when absent. *)
Record bundle_dict : Type := {
  bd_model : option Classifier;
  bd_scaler : option StandardScaler;
  bd_label_encoder : option LabelEncoder;
  bd_feature_names : option (list string);
  bd_classes : option (list string)
}.

(** The module-level variables [bundle], [model], [scaler],
    [label_classes]. *)
Record globals : Type := {
  bundle : option bundle_dict;
  model : option Classifier;
  scaler : option StandardScaler;
  label_classes : list string
}.

Definition initial_globals : globals :=
  {| bundle := None; model := None; scaler := None; label_classes := [] |}.

(** [load_model_bundle()]: [file] is the outcome of opening and unpickling
    [BUNDLE_PATH].  The four assignments happen one after the other inside
    the [try]; the first failing lookup leaves the earlier ones in place. *)
Definition load_model_bundle (file : result bundle_dict) (g : globals) : globals * bool :=
  match file with
  | inl _ => (g, false)
  | inr b =>
      let g1 := {| bundle := Some b; model := model g; scaler := scaler g;
                   label_classes := label_classes g |} in
      match bd_model b with
      | None => (g1, false)
      | Some m =>
          let g2 := {| bundle := bundle g1; model := Some m; scaler := scaler g1;
                       label_classes := label_classes g1 |} in
          match bd_scaler b with
          | None => (g2, false)
          | Some s =>
              let g3 := {| bundle := bundle g2; model := model g2; scaler := Some s;
                           label_classes := label_classes g2 |} in
              match bd_classes b with
              | None => (g3, false)
              | Some cs =>
                  let g4 := {| bundle := bundle g3; model := model g3;
                               scaler := scaler g3; label_classes := cs |} in
                  match bd_feature_names b with
                  | None => (g4, false)
                  | Some _ => (g4, true)
                  end
              end
          end
      end
  end.

(** The module loads the bundle once, at import. *)
Definition startup (file : result bundle_dict) : globals :=
  fst (load_model_bundle file initial_globals).

(** *** Responses *)

Record sample : Type := {
  temperature : float;
  co2 : float;
  pm25 : float;
  humidity : float
}.

Record prediction_body : Type := {
  prediction : Z;
  label : string;
  confidence : float;
  probabilities : gmap string float;
  input : sample
}.

Record health_body : Type := {
  status_text : string;
  model_loaded : bool;
  scaler_loaded : bool;
  model_type : string
}.

Record info_body : Type := {
  name : string;
  version : string;
  model_name : string;
  platform : string;
  accuracy : string;
  features : list string;
  classes : list string;
  endpoints : list (string * string)
}.

(** The value of an ['error'] entry: a literal of the handler, or
    [str(e)] of the exception that was caught. *)
Inductive message : Type :=
  | Literal (s : string)
  | StrOf (e : exn).

Inductive body : Type :=
  | Error (msg : message)
  | Prediction (p : prediction_body)
  | Health (h : health_body)
  | Info (i : info_body).

Record response : Type := {
  status : Z;
  payload : body
}.

(** *** Events *)

Inductive event : Type :=
  | EvFloat (v : json)
  | EvTransform (X : matrix)
  | EvPredict (X : matrix)
  | EvPredictProba (X : matrix).

Definition index (g : globals) : response :=
  {| status := 200;
     payload := Info
       {| name := "Aang Air Quality ML API";
          version := "3.0.0";
          model_name := "AdaBoost Classifier + StandardScaler";
          platform := "Google Cloud Run";
          accuracy := "96.37%";
          features := ["temperature"; "co2"; "pm25"; "humidity"]%string;
          classes := label_classes g;
          endpoints := [("/", "API info"); ("/health", "Health check");
                        ("/predict", "POST - Predict air quality")]%string |} |}.

Definition health_check (g : globals) : response :=
  {| status := 200;
     payload := Health
       {| status_text := "healthy";
          model_loaded := bool_decide (is_Some (model g));
          scaler_loaded := bool_decide (is_Some (scaler g));
          model_type := "AdaBoost + StandardScaler" |} |}.

Definition required_fields : list string :=
  ["temperature"; "co2"; "pm25"; "humidity"]%string.

(** The validation loop: the first field, in order, that is not in
    [data]; the membership test itself may raise. *)
Fixpoint first_missing (fields : list string) (data : json) : result (option string) :=
  match fields with
  | [] => inr None
  | field :: rest =>
      match contains data field with
      | inl e => inl e
      | inr false => inr (Some field)
      | inr true => first_missing rest data
      end
  end.

(** The loop that fills [prob_dict]: [i] is the index [enumerate] has
    reached; [probs !! i] is defined exactly when [i < len(probabilities)]. *)
Fixpoint build_prob_dict (i : nat) (labels : list string) (probs : list float)
    (prob_dict : gmap string float) : gmap string float :=
  match labels with
  | [] => prob_dict
  | l :: rest =>
      build_prob_dict (S i) rest probs
        match probs !! i with
        | Some p => <[l := p]> prob_dict
        | None => prob_dict
        end
  end.

Section WithFloatParser.

(** [float(s)] for a str is Python's own parser: [None] when it raises
    [ValueError]. *)
Variable float_of_string : string -> option float.

(** The builtin [float(v)] on a parsed JSON value. *)
Definition to_float (v : json) : result float :=
  match v with
  | JNull => inl TypeError
  | JBool b => inr (if b then 1%float else 0%float)
  | JInt z => float_of_int z
  | JFloat f => inr f
  | JStr s => match float_of_string s with
              | Some f => inr f
              | None => inl ValueError
              end
  | JArr _ | JObj _ => inl TypeError
  end.

(** [float(data[key])] *)
Definition float_field (data : json) (key : string) : M event float :=
  v <- lift (getitem data key) ;;
  emit (EvFloat v) ;;;
  lift (to_float v).

(** Everything after the loaded check, inside the [try]. *)
Definition predict_loaded (m : Classifier) (sc : StandardScaler)
    (labels : list string) (get_json : result json) : M event response :=
  data <- lift get_json ;;
  missing <- lift (first_missing required_fields data) ;;
  match missing with
  | Some field =>
      ret {| status := 400;
             payload := Error (Literal ("Missing field: " ++ field)) |}
  | None =>
      temp <- float_field data "temperature" ;;
      co2v <- float_field data "co2" ;;
      pm25v <- float_field data "pm25" ;;
      hum <- float_field data "humidity" ;;
      let input_raw := [[temp; co2v; pm25v; hum]] in
      emit (EvTransform input_raw) ;;;
      input_scaled <- lift (transform sc input_raw) ;;
      emit (EvPredict input_scaled) ;;;
      preds <- lift (clf_predict m input_scaled) ;;
      pred <- lift (list_getitem preds 0) ;;
      emit (EvPredictProba input_scaled) ;;;
      probas <- lift (clf_predict_proba m input_scaled) ;;
      probs <- lift (list_getitem probas 0) ;;
      prediction_label <-
        lift (if pred <? Z.of_nat (length labels)
              then list_getitem labels pred
              else inr "Unknown"%string) ;;
      conf <- lift (Py.max probs) ;;
      let prob_dict := build_prob_dict 0 labels probs ∅ in
      ret {| status := 200;
             payload := Prediction
               {| prediction := pred;
                  label := prediction_label;
                  confidence := conf;
                  probabilities := prob_dict;
                  input := {| temperature := temp; co2 := co2v;
                              pm25 := pm25v; humidity := hum |} |} |}
  end.

(** The [/predict] handler: the returned log lists the calls it made. *)
Definition predict (g : globals) (get_json : result json) : list event * response :=
  try_except
    match model g, scaler g with
    | Some m, Some sc => predict_loaded m sc (label_classes g) get_json
    | _, _ =>
        ret {| status := 500;
               payload := Error (Literal "Model or scaler not loaded") |}
    end
    (fun e => {| status := 500; payload := Error (StrOf e) |}).

(** *** The service as a whole *)

Inductive http_request : Type :=
  | GetIndex
  | GetHealth
  | PostPredict (get_json : result json).

Definition handle (g : globals) (r : http_request) : list event * response :=
  match r with
  | GetIndex => ([], index g)
  | GetHealth => ([], health_check g)
  | PostPredict j => predict g j
  end.

(** No handler declares a module variable [global], so none can rebind
    one: every request is served against the globals left by startup. *)
Definition serve (g : globals) (rs : list http_request) : list (list event * response) :=
  map (handle g) rs.

End WithFloatParser.

End Api.

(** ** [ml_model/train_model.py] *)

Module Trainer.

(** A cell of the CSV file: a number or a text. *)
Inductive cell : Type :=
  | CNum (f : float)
  | CText (s : string).

(** A pandas [DataFrame]: its columns, in file order. *)
Definition DataFrame : Type := list (string * list cell).

Definition column (df : DataFrame) (c : string) : option (list cell) :=
  snd <$> List.find (fun p => String.eqb (fst p) c) df.

Definition has_column (df : DataFrame) (c : string) : bool :=
  match column df c with Some _ => true | None => false end.

(** [df[c]]: [KeyError] naming the column when it is absent. *)
Definition getitem_column (df : DataFrame) (c : string) : result (list cell) :=
  match column df c with
  | Some col => inr col
  | None => inl (KeyError [c])
  end.

(** [df[[c1, ..., cn]]]: [KeyError] naming every absent column. *)
Definition getitem_columns (df : DataFrame) (cs : list string) : result DataFrame :=
  match List.filter (fun c => negb (has_column df c)) cs with
  | [] => inr (map (fun c => (c, default [] (column df c))) cs)
  | missing => inl (KeyError missing)
  end.

Fixpoint mapM {A B} (f : A -> result B) (xs : list A) : result (list B) :=
  match xs with
  | [] => inr []
  | x :: rest =>
      match f x with
      | inl e => inl e
      | inr y => match mapM f rest with
                 | inl e => inl e
                 | inr ys => inr (y :: ys)
                 end
      end
  end.

Definition cell_float (c : cell) : result float :=
  match c with
  | CNum f => inr f
  | CText _ => inl ValueError
  end.

(** The rows of a frame as a float array, as the library reads a frame
    it is given: a text cell is a [ValueError]. *)
Definition to_numpy (df : DataFrame) : result matrix :=
  let n := match df with [] => O | (_, col) :: _ => length col end in
  mapM (fun i => mapM (fun p : string * list cell =>
                         match snd p !! i with
                         | Some c => cell_float c
                         | None => inl ValueError
                         end) df)
       (seq 0 n).

(** The entry points of the learning libraries that the trainer calls.
    Each may raise; what they compute is theirs. *)
Record Library : Type := {
  read_csv : string -> result DataFrame;
  (** [LabelEncoder().fit_transform(labels)] *)
  fit_transform_labels : list cell -> result (LabelEncoder * list Z);
  (** [train_test_split(X, y, test_size, random_state, stratify)] *)
  train_test_split :
    DataFrame -> list Z -> float -> Z -> list Z ->
    result (DataFrame * DataFrame * list Z * list Z);
  (** [SMOTE(random_state).fit_resample(X, y)] *)
  fit_resample : Z -> DataFrame -> list Z -> result (DataFrame * list Z);
  (** [StandardScaler().fit(X)] *)
  scaler_fit : matrix -> result StandardScaler;
  (** [AdaBoostClassifier(random_state).fit(X, y)] *)
  adaboost_fit : Z -> matrix -> list Z -> result Classifier;
  accuracy_score : list Z -> list Z -> result float;
  precision_score : list Z -> list Z -> string -> result float;
  recall_score : list Z -> list Z -> string -> result float;
  f1_score : list Z -> list Z -> string -> result float;
  classification_report : list Z -> list Z -> list string -> result string
}.

Inductive event : Type :=
  | EvReadCsv (path : string)
  | EvLabelFit (labels : list cell)
  | EvSplit (X : DataFrame) (y : list Z) (test_size : float) (random_state : Z)
      (stratify : list Z)
  | EvSmote (random_state : Z) (X : DataFrame) (y : list Z)
  | EvScalerFit (X : matrix)
  | EvScalerTransform (sc : StandardScaler) (X : matrix)
  | EvAdaBoostFit (random_state : Z) (X : matrix) (y : list Z)
  | EvClfPredict (X : matrix)
  | EvMetric (name : string) (y_true y_pred : list Z).

Definition feature_columns : list string :=
  ["air_temperature"; "CO2"; "pm2_5"; "humidity"]%string.

Definition label_column : string := "Air_Quality_Label".

Definition required_columns : list string := feature_columns ++ [label_column].

Section WithLibrary.

Variable lib : Library.

(** [scaler.transform(X)] on a frame. *)
Definition scaler_transform (sc : StandardScaler) (X : DataFrame) : M event matrix :=
  A <- lift (to_numpy X) ;;
  emit (EvScalerTransform sc A) ;;;
  lift (transform sc A).

(** [scaler.fit_transform(X)] is [scaler.fit(X).transform(X)]. *)
Definition scaler_fit_transform (X : DataFrame) : M event (StandardScaler * matrix) :=
  A <- lift (to_numpy X) ;;
  emit (EvScalerFit A) ;;;
  sc <- lift (scaler_fit lib A) ;;
  Xs <- scaler_transform sc X ;;
  ret (sc, Xs).

Definition train_adaboost_model (csv_path : string)
    : M event (Classifier * StandardScaler * LabelEncoder) :=
  emit (EvReadCsv csv_path) ;;;
  df <- lift (read_csv lib csv_path) ;;
  X <- lift (getitem_columns df feature_columns) ;;
  labels <- lift (getitem_column df label_column) ;;
  emit (EvLabelFit labels) ;;;
  le_y <- lift (fit_transform_labels lib labels) ;;
  let '(le, y) := le_y in
  emit (EvSplit X y 0.2%float 42 y) ;;;
  parts <- lift (train_test_split lib X y 0.2%float 42 y) ;;
  let '(X_train, X_test, y_train, y_test) := parts in
  emit (EvSmote 42 X_train y_train) ;;;
  resampled <- lift (fit_resample lib 42 X_train y_train) ;;
  let '(X_train_smote, y_train_smote) := resampled in
  fitted <- scaler_fit_transform X_train_smote ;;
  let '(scaler, X_train_smote_scaled) := fitted in
  X_test_scaled <- scaler_transform scaler X_test ;;
  emit (EvAdaBoostFit 42 X_train_smote_scaled y_train_smote) ;;;
  adaboost_classifier <- lift (adaboost_fit lib 42 X_train_smote_scaled y_train_smote) ;;
  emit (EvClfPredict X_test_scaled) ;;;
  y_pred <- lift (clf_predict adaboost_classifier X_test_scaled) ;;
  emit (EvMetric "accuracy" y_test y_pred) ;;;
  accuracy <- lift (accuracy_score lib y_test y_pred) ;;
  emit (EvMetric "precision" y_test y_pred) ;;;
  precision <- lift (precision_score lib y_test y_pred "weighted") ;;
  emit (EvMetric "recall" y_test y_pred) ;;;
  recall <- lift (recall_score lib y_test y_pred "weighted") ;;
  emit (EvMetric "f1" y_test y_pred) ;;;
  f1 <- lift (f1_score lib y_test y_pred "weighted") ;;
  emit (EvMetric "report" y_test y_pred) ;;;
  report <- lift (classification_report lib y_test y_pred (classes_ le)) ;;
  ret (adaboost_classifier, scaler, le).

End WithLibrary.

(** [save_model_bundle]: the dict that is pickled. *)
Definition save_model_bundle (model : Classifier) (scaler : StandardScaler)
    (label_encoder : LabelEncoder) : Api.bundle_dict :=
  {| Api.bd_model := Some model;
     Api.bd_scaler := Some scaler;
     Api.bd_label_encoder := Some label_encoder;
     Api.bd_feature_names := Some feature_columns;
     Api.bd_classes := Some (classes_ label_encoder) |}.

End Trainer.

(** ** Concrete data to run the embedding on *)

Module Demo.

Import Api Trainer.

#[local] Open Scope float_scope.

(** A parser for the few numerals used below. *)
Definition float_of_string (s : string) : option float :=
  if String.eqb s "26.5" then Some 26.5
  else if String.eqb s "450" then Some 450
  else if String.eqb s "inf" then Some infinity
  else None.

Definition labels : list string :=
  ["TCI Comfort & IAQI Good"; "TCI Comfort & IAQI Moderate"]%string.

(** A classifier that answers class 0 with probabilities 0.75 / 0.25. *)
Definition clf : Classifier :=
  {| clf_predict := fun X => inr (map (fun _ => 0%Z) X);
     clf_predict_proba := fun X => inr (map (fun _ => [0.75; 0.25]) X) |}.

(** Classifiers that answer a fixed class index. *)
Definition clf_index (i : Z) : Classifier :=
  {| clf_predict := fun X => inr (map (fun _ => i) X);
     clf_predict_proba := fun X => inr (map (fun _ => [0.75; 0.25]) X) |}.

Definition sc : StandardScaler :=
  {| mean_ := [25; 500; 30; 60]; scale_ := [2; 100; 10; 5] |}.

Definition ready : globals :=
  {| bundle := None; model := Some clf; scaler := Some sc; label_classes := labels |}.

Definition ready_index (i : Z) : globals :=
  {| bundle := None; model := Some (clf_index i); scaler := Some sc;
     label_classes := labels |}.

(** The request of the handler's docstring. *)
Definition sample_fields : gmap string json :=
  {[ "temperature"%string := JFloat 26.5; "co2"%string := JInt 450;
     "pm25"%string := JInt 35; "humidity"%string := JInt 65 ]}.

Definition sample_request : result json := inr (JObj sample_fields).

(** The same request without its [pm25] entry. *)
Definition no_pm25 : gmap string json :=
  {[ "temperature"%string := JFloat 26.5; "co2"%string := JInt 450;
     "humidity"%string := JInt 65 ]}.

(** The same request with a text that is no number for [co2]. *)
Definition bad_co2 : gmap string json :=
  {[ "temperature"%string := JFloat 26.5; "co2"%string := JStr "high";
     "pm25"%string := JInt 35; "humidity"%string := JInt 65 ]}.

(** A bundle file whose dict has a classifier and nothing else. *)
Definition model_only : result bundle_dict :=
  inr {| bd_model := Some clf; bd_scaler := None; bd_label_encoder := None;
         bd_feature_names := None; bd_classes := None |}.

(** *** A stand-in for the learning library

    Enough of a library to run the trainer: labels are numbered in
    order of first appearance, every fifth row is held out, resampling
    returns the training split as it is, the scaler is fitted with the
    plain population mean and standard deviation, and the classifier is
    [clf]. *)

Definition text_of (c : cell) : result string :=
  match c with
  | CText s => inr s
  | CNum _ => inl TypeError
  end.

Fixpoint position (s : string) (xs : list string) : Z :=
  match xs with
  | [] => 0
  | x :: rest => if String.eqb x s then 0 else 1 + position s rest
  end.

Definition encode (col : list cell) : result (LabelEncoder * list Z) :=
  match mapM text_of col with
  | inl e => inl e
  | inr names =>
      let cs := remove_dups names in
      inr ({| classes_ := cs |}, map (fun n => position n cs) names)
  end.

Fixpoint pick {A} (keep : nat -> bool) (i : nat) (xs : list A) : list A :=
  match xs with
  | [] => []
  | x :: rest => if keep i then x :: pick keep (S i) rest else pick keep (S i) rest
  end.

Definition held_out (i : nat) : bool := (i mod 5 =? 4)%nat.

Definition split (X : DataFrame) (y : list Z) (test_size : float) (seed : Z)
    (stratify : list Z) : result (DataFrame * DataFrame * list Z * list Z) :=
  inr (map (fun p => (fst p, pick (fun i => negb (held_out i)) 0 (snd p))) X,
       map (fun p => (fst p, pick held_out 0 (snd p))) X,
       pick (fun i => negb (held_out i)) 0 y,
       pick held_out 0 y).

Definition sum (xs : list float) : float := fold_left PrimFloat.add xs 0.

Definition mean (xs : list float) : float :=
  sum xs / PrimFloat.of_uint63 (Uint63.of_Z (Z.of_nat (length xs))).

Definition std (xs : list float) : float :=
  let m := mean xs in
  PrimFloat.sqrt (mean (map (fun x => (x - m) * (x - m)) xs)).

Fixpoint transpose (width : nat) (rows : matrix) : matrix :=
  match width with
  | O => []
  | S w => omap head rows :: transpose w (map (drop 1) rows)
  end.

Definition plain_fit (X : matrix) : result StandardScaler :=
  let cols := transpose (length (default [] (head X))) X in
  inr {| mean_ := map mean cols; scale_ := map std cols |}.

Definition lib : Library :=
  {| read_csv := fun path =>
       if String.eqb path "air_quality_with_labels.csv" then
         inr [("air_temperature", map CNum [24; 26; 25; 30; 27; 23; 29; 28; 26; 25]);
              ("CO2", map CNum [400; 450; 500; 900; 650; 420; 800; 700; 480; 520]);
              ("pm2_5", map CNum [10; 35; 20; 80; 40; 12; 70; 60; 30; 25]);
              ("humidity", map CNum [55; 65; 60; 70; 62; 58; 68; 66; 61; 59]);
              ("Air_Quality_Label",
               map CText ["Good"; "Good"; "Good"; "Poor"; "Poor";
                          "Good"; "Poor"; "Poor"; "Good"; "Poor"])]%string
       else if String.eqb path "constant_humidity.csv" then
         inr [("air_temperature", map CNum [24; 26; 25; 30; 27; 23; 29; 28; 26; 25]);
              ("CO2", map CNum [400; 450; 500; 900; 650; 420; 800; 700; 480; 520]);
              ("pm2_5", map CNum [10; 35; 20; 80; 40; 12; 70; 60; 30; 25]);
              ("humidity", map CNum [60; 60; 60; 60; 60; 60; 60; 60; 60; 60]);
              ("Air_Quality_Label",
               map CText ["Good"; "Good"; "Good"; "Poor"; "Poor";
                          "Good"; "Poor"; "Poor"; "Good"; "Poor"])]%string
       else if String.eqb path "no_humidity.csv" then
         inr [("air_temperature", map CNum [24; 26]);
              ("CO2", map CNum [400; 450]);
              ("pm2_5", map CNum [10; 35]);
              ("Air_Quality_Label", map CText ["Good"; "Poor"])]%string
       else inl (LibraryError "No such file or directory");
     fit_transform_labels := encode;
     train_test_split := split;
     fit_resample := fun seed X y => inr (X, y);
     scaler_fit := plain_fit;
     adaboost_fit := fun seed X y => inr clf;
     accuracy_score := fun y_true y_pred => inr 0.5;
     precision_score := fun y_true y_pred average => inr 0.5;
     recall_score := fun y_true y_pred average => inr 0.5;
     f1_score := fun y_true y_pred average => inr 0.5;
     classification_report := fun y_true y_pred names => inr ""%string |}.

(** The trainer run on the complete dataset. *)
Definition trained : M Trainer.event (Classifier * StandardScaler * LabelEncoder) :=
  train_adaboost_model lib "air_quality_with_labels.csv".

Definition trained_scaler : StandardScaler :=
  match snd trained with
  | inr (_, s, _) => s
  | inl _ => sc
  end.

End Demo.

(** ** Notions used to state the properties *)

Module ApiPhases.

Import Api.

(** The two halves of the handler's body

    [predict_loaded] is, after validation, the four coercions followed by
    scaling, inference and the response. *)

Definition extract_values parse (data : json) : M event sample :=
  temp <- float_field parse data "temperature" ;;
  co2v <- float_field parse data "co2" ;;
  pm25v <- float_field parse data "pm25" ;;
  hum <- float_field parse data "humidity" ;;
  ret {| temperature := temp; co2 := co2v; pm25 := pm25v; humidity := hum |}.

Definition classify (m : Classifier) (sc : StandardScaler) (labels : list string)
    (x : sample) : M event response :=
  let input_raw := [[temperature x; co2 x; pm25 x; humidity x]] in
  emit (EvTransform input_raw) ;;;
  input_scaled <- lift (transform sc input_raw) ;;
  emit (EvPredict input_scaled) ;;;
  preds <- lift (clf_predict m input_scaled) ;;
  pred <- lift (list_getitem preds 0) ;;
  emit (EvPredictProba input_scaled) ;;;
  probas <- lift (clf_predict_proba m input_scaled) ;;
  probs <- lift (list_getitem probas 0) ;;
  prediction_label <-
    lift (if pred <? Z.of_nat (length labels)
          then list_getitem labels pred
          else inr "Unknown"%string) ;;
  conf <- lift (Py.max probs) ;;
  ret {| status := 200;
         payload := Prediction
           {| prediction := pred;
              label := prediction_label;
              confidence := conf;
              probabilities := build_prob_dict 0 labels probs ∅;
              input := x |} |}.

(** An event of the log that is a [float(...)] coercion. *)
Definition is_coercion (ev : event) : Prop := exists v, ev = EvFloat v.



(** The health response that reports nothing as loaded. *)
Definition health_reports_nothing_loaded (g : globals) : Prop :=
  payload (health_check g) =
  Health {| status_text := "healthy"; model_loaded := false; scaler_loaded := false;
            model_type := "AdaBoost + StandardScaler" |}.

(** The 400 response is reached only when the body parses to a JSON object. *)
Definition missing_field_only_for_objects parse (g : globals) : Prop :=
  forall data,
    status (snd (predict parse g (inr data))) = 400 -> exists m, data = JObj m.

End ApiPhases.

Module TrainerRuns.

Import Trainer.

(** The intermediate values of a run of the trainer. *)
Record run : Type := {
  run_df : DataFrame;
  run_X : DataFrame;
  run_labels : list cell;
  run_y : list Z;
  run_X_train : DataFrame;
  run_X_test : DataFrame;
  run_y_train : list Z;
  run_y_test : list Z;
  run_X_train_smote : DataFrame;
  run_y_train_smote : list Z;
  run_train_array : matrix;
  run_test_array : matrix;
  run_train_scaled : matrix;
  run_test_scaled : matrix;
  run_y_pred : list Z
}.

(** What a completed run did, call by call: each value is the result of
    the library call on the values before it, and the log lists the calls
    in the order they were made. *)
Definition completed (lib : Library) (path : string) (log : list Trainer.event)
    (clf : Classifier) (sc : StandardScaler) (le : LabelEncoder) (r : run) : Prop :=
  read_csv lib path = inr (run_df r)
  /\ getitem_columns (run_df r) feature_columns = inr (run_X r)
  /\ getitem_column (run_df r) label_column = inr (run_labels r)
  /\ fit_transform_labels lib (run_labels r) = inr (le, run_y r)
  /\ train_test_split lib (run_X r) (run_y r) 0.2%float 42 (run_y r)
     = inr (run_X_train r, run_X_test r, run_y_train r, run_y_test r)
  /\ fit_resample lib 42 (run_X_train r) (run_y_train r)
     = inr (run_X_train_smote r, run_y_train_smote r)
  /\ to_numpy (run_X_train_smote r) = inr (run_train_array r)
  /\ scaler_fit lib (run_train_array r) = inr sc
  /\ transform sc (run_train_array r) = inr (run_train_scaled r)
  /\ to_numpy (run_X_test r) = inr (run_test_array r)
  /\ transform sc (run_test_array r) = inr (run_test_scaled r)
  /\ adaboost_fit lib 42 (run_train_scaled r) (run_y_train_smote r) = inr clf
  /\ clf_predict clf (run_test_scaled r) = inr (run_y_pred r)
  /\ log =
     [EvReadCsv path;
      EvLabelFit (run_labels r);
      EvSplit (run_X r) (run_y r) 0.2%float 42 (run_y r);
      EvSmote 42 (run_X_train r) (run_y_train r);
      EvScalerFit (run_train_array r);
      EvScalerTransform sc (run_train_array r);
      EvScalerTransform sc (run_test_array r);
      EvAdaBoostFit 42 (run_train_scaled r) (run_y_train_smote r);
      EvClfPredict (run_test_scaled r);
      EvMetric "accuracy" (run_y_test r) (run_y_pred r);
      EvMetric "precision" (run_y_test r) (run_y_pred r);
      EvMetric "recall" (run_y_test r) (run_y_pred r);
      EvMetric "f1" (run_y_test r) (run_y_pred r);
      EvMetric "report" (run_y_test r) (run_y_pred r)].

End TrainerRuns.

(** ** The rest of [ml_model/train_model.py] *)

Module TrainerMain.

Import Api Trainer.

(** [load_and_prepare_data]: read the file, print the label counts (this
    reads the label column), return the frame. *)
Definition load_and_prepare_data (lib : Library) (csv_path : string)
    : M Trainer.event DataFrame :=
  emit (EvReadCsv csv_path) ;;;
  df <- lift (read_csv lib csv_path) ;;
  lift (getitem_column df label_column) ;;;
  ret df.

(** [bundle[key]] on the bundle dict. *)
Definition bundle_getitem {A} (entry : option A) (key : string) : result A :=
  match entry with
  | Some x => inr x
  | None => inl (KeyError [key])
  end.

(** What the self-test of the main block prints: the predicted class
    name, the confidence in percent, and the percentage of every class. *)
Record test_output : Type := {
  out_label : string;
  out_confidence : float;
  out_percentages : list (string * float)
}.

(** The loop that prints [proba[0][i] * 100] for every class ([row] is
    [proba[0]]): an index beyond the distribution raises [IndexError]. *)
Fixpoint percentages (i : nat) (classes : list string) (row : list float)
    : result (list (string * float)) :=
  match classes with
  | [] => inr []
  | cls :: rest =>
      match list_getitem row (Z.of_nat i) with
      | inl e => inl e
      | inr p =>
          match percentages (S i) rest row with
          | inl e => inl e
          | inr ps => inr ((cls, (p * 100)%float) :: ps)
          end
      end
  end.

(** The test prediction of the main block, on the bundle read back from
    the file. *)
Definition test_prediction (bundle : bundle_dict) : M Api.event test_output :=
  let sample_raw := [[26.5; 450; 35; 65]]%float in
  sc <- lift (bundle_getitem (bd_scaler bundle) "scaler") ;;
  emit (EvTransform sample_raw) ;;;
  sample_scaled <- lift (transform sc sample_raw) ;;
  m <- lift (bundle_getitem (bd_model bundle) "model") ;;
  emit (EvPredict sample_scaled) ;;;
  prediction <- lift (clf_predict m sample_scaled) ;;
  m' <- lift (bundle_getitem (bd_model bundle) "model") ;;
  emit (EvPredictProba sample_scaled) ;;;
  proba <- lift (clf_predict_proba m' sample_scaled) ;;
  classes <- lift (bundle_getitem (bd_classes bundle) "classes") ;;
  p0 <- lift (list_getitem prediction 0) ;;
  name <- lift (list_getitem classes p0) ;;
  row <- lift (list_getitem proba 0) ;;
  top <- lift (Py.max row) ;;
  classes' <- lift (bundle_getitem (bd_classes bundle) "classes") ;;
  ps <- lift (percentages 0 classes' row) ;;
  ret {| out_label := name; out_confidence := (top * 100)%float; out_percentages := ps |}.

(** The main block: train, save the bundle, read it back (the file holds
    the dict that was saved) and run the test prediction.  The two logs
    are the trainer's and the test prediction's. *)
Definition main (lib : Library)
    : list Trainer.event * list Api.event * result test_output :=
  match train_adaboost_model lib "air_quality_with_labels.csv" with
  | (tlog, inl e) => (tlog, [], inl e)
  | (tlog, inr (model, scaler, le)) =>
      let bundle := save_model_bundle model scaler le in
      let (plog, r) := test_prediction bundle in
      (tlog, plog, r)
  end.

End TrainerMain.

(** ** Further notions and data for the properties of the service *)

Module ApiShapes.

Import Api.



Definition without_classes : bundle_dict :=
  {| bd_model := Some Demo.clf; bd_scaler := Some Demo.sc; bd_label_encoder := None;
     bd_feature_names := None; bd_classes := None |}.

(** The response to the docstring request when no class name is known. *)
Definition unknown_body : prediction_body :=
  {| prediction := 0; label := "Unknown"; confidence := 0.75%float;
     probabilities := ∅;
     input := {| temperature := 26.5%float; co2 := 450%float; pm25 := 35%float;
                 humidity := 65%float |} |}.

(** The response to the docstring request with the two class names. *)
Definition sample_body : prediction_body :=
  {| prediction := 0; label := "TCI Comfort & IAQI Good"; confidence := 0.75%float;
     probabilities := build_prob_dict 0 Demo.labels [0.75; 0.25]%float ∅;
     input := {| temperature := 26.5%float; co2 := 450%float; pm25 := 35%float;
                 humidity := 65%float |} |}.

(** A body that is the array of the four field names. *)
Definition names_array : json :=
  JArr [JStr "temperature"; JStr "co2"; JStr "pm25"; JStr "humidity"].

(** A request with only its temperature. *)
Definition only_temperature : gmap string json :=
  {[ "temperature"%string := JFloat 26.5%float ]}.

End ApiShapes.

Module MainDemo.

Import Api Trainer TrainerMain.

(** What the main block prints on the stand-in library. *)
Definition printed : test_output :=
  {| out_label := "Good";
     out_confidence := 75%float;
     out_percentages := [("Good"%string, 75%float); ("Poor"%string, 25%float)] |}.

(** A classifier whose distribution has a single entry, and a bundle with
    two class names around it. *)
Definition short_clf : Classifier :=
  {| clf_predict := fun X => inr (map (fun _ => 0%Z) X);
     clf_predict_proba := fun X => inr (map (fun _ => [1%float]) X) |}.

Definition short_bundle : bundle_dict :=
  save_model_bundle short_clf Demo.sc {| classes_ := Demo.labels |}.

(** The frame of the stand-in library's dataset, its feature columns and
    the codes of its labels. *)
Definition demo_frame : DataFrame :=
  match read_csv Demo.lib "air_quality_with_labels.csv" with
  | inr df => df
  | inl _ => []
  end.

Definition demo_features : DataFrame :=
  match getitem_columns demo_frame feature_columns with
  | inr X => X
  | inl _ => []
  end.

Definition demo_codes : list Z := [0; 0; 0; 1; 1; 0; 1; 1; 0; 1].

End MainDemo.

(** * Properties *)

(** ** The order of floats and the builtin [max] *)

Module FloatOrder.

Import FloatKey.











End FloatOrder.

(** ** The prediction handler *)

Module ApiLemmas.

Import Api ApiPhases.

Lemma bind_inr {E A B} (l : list E) (a : A) (k : A -> M E B) :
  bind (l, inr a) k = (l ++ fst (k a), snd (k a)).
Proof. unfold bind. destruct (k a). reflexivity. Qed.

Lemma bind_lift_inr {E A B} (a : A) (k : A -> M E B) :
  bind (lift (inr a)) k = k a.
Proof. cbn. destruct (k a). reflexivity. Qed.

Lemma bind_inl {E A B} (l : list E) (e : exn) (k : A -> M E B) :
  bind (l, inl e) k = (l, inl e).
Proof. reflexivity. Qed.

Lemma contains_present (d : gmap string json) (k : string) (v : json) :
  d !! k = Some v -> contains (JObj d) k = inr true.
Proof. intros H. cbn. rewrite H. reflexivity. Qed.

Lemma contains_absent (d : gmap string json) (k : string) :
  d !! k = None -> contains (JObj d) k = inr false.
Proof. intros H. cbn. rewrite H. reflexivity. Qed.

Lemma float_field_present parse (d : gmap string json) (k : string) (v : json) :
  d !! k = Some v ->
  float_field parse (JObj d) k = ([EvFloat v], to_float parse v).
Proof.
  intros H. unfold float_field, lift, emit, getitem. rewrite H.
  cbn. destruct (to_float parse v); reflexivity.
Qed.

(** A dict with the four fields passes the validation loop. *)
Lemma first_missing_none (d : gmap string json) :
  (forall f, In f required_fields -> is_Some (d !! f)) ->
  first_missing required_fields (JObj d) = inr None.
Proof.
  intros Hall. unfold required_fields in *.
  destruct (Hall "temperature"%string) as [v1 H1]; [cbn; tauto |].
  destruct (Hall "co2"%string) as [v2 H2]; [cbn; tauto |].
  destruct (Hall "pm25"%string) as [v3 H3]; [cbn; tauto |].
  destruct (Hall "humidity"%string) as [v4 H4]; [cbn; tauto |].
  cbn [first_missing].
  rewrite (contains_present _ _ _ H1), (contains_present _ _ _ H2),
    (contains_present _ _ _ H3), (contains_present _ _ _ H4).
  reflexivity.
Qed.

(** The handler once the bundle is loaded. *)
Lemma predict_ready parse (g : globals) (m : Classifier) (sc : StandardScaler) req :
  model g = Some m -> scaler g = Some sc ->
  predict parse g req =
  try_except (predict_loaded parse m sc (label_classes g) req)
    (fun e => {| status := 500; payload := Error (StrOf e) |}).
Proof. intros Hm Hs. unfold predict. rewrite Hm, Hs. reflexivity. Qed.


Lemma bind_inr_inv {E A B} (c : M E A) (k : A -> M E B) (l : list E) (b : B) :
  bind c k = (l, inr b) ->
  exists l1 a l2, c = (l1, inr a) /\ k a = (l2, inr b) /\ l = l1 ++ l2.
Proof.
  destruct c as [l1 [e | a]]; cbn; [discriminate |].
  destruct (k a) as [l2 r] eqn:Hk. intros [= <- ->]. eauto 6.
Qed.

Lemma lift_inr_inv {E A} (r : result A) (l : list E) (a : A) :
  lift r = (l, inr a) -> r = inr a /\ l = [].
Proof. unfold lift. intros [= <- ->]. auto. Qed.

Lemma emit_inv {E} (ev : E) (l : list E) (u : unit) :
  emit ev = (l, inr u) -> l = [ev].
Proof. unfold emit. intros [= <-]. reflexivity. Qed.

Lemma ret_inv {E A} (a b : A) (l : list E) :
  ret a = (l, inr b) -> a = b /\ l = [].
Proof. unfold ret. intros [= <- ->]. auto. Qed.

Lemma list_getitem_0 {A} (xs : list A) (x : A) :
  list_getitem xs 0 = inr x -> xs !! O = Some x.
Proof.
  destruct xs as [|y ys]; [discriminate |].
  unfold list_getitem.
  change (if 0 <? 0 then 0 + Z.of_nat (length (y :: ys)) else 0) with 0.
  destruct (Z.leb_spec (Z.of_nat (length (y :: ys))) 0) as [Hle | _];
    [cbn [length] in Hle; lia |].
  cbn. intros [= ->]. reflexivity.
Qed.

(** Take a successful run of a chain of binds apart, step by step. *)
Ltac invert_run H :=
  repeat match type of H with
         | bind _ _ = (_, inr _) =>
             let l1 := fresh "l" in
             let a := fresh "a" in
             let l2 := fresh "l" in
             let H1 := fresh "Hstep" in
             let Hl := fresh "Hlog" in
             apply bind_inr_inv in H;
             destruct H as (l1 & a & l2 & H1 & H & Hl);
             first [ apply lift_inr_inv in H1; destruct H1 as [H1 ->]
                   | apply emit_inv in H1; subst l1
                   | idtac ];
             cbn beta iota in H
         end.

Lemma bind_assoc {E A B C} (c : M E A) (f : A -> M E B) (k : B -> M E C) :
  bind (bind c f) k = bind c (fun a => bind (f a) k).
Proof.
  destruct c as [l1 [e | a]]; [reflexivity |]. cbn.
  destruct (f a) as [l2 [e | b]]; [reflexivity |]. cbn.
  destruct (k b) as [l3 r]. rewrite app_assoc. reflexivity.
Qed.

Lemma bind_ret {E A B} (a : A) (k : A -> M E B) : bind (ret a) k = k a.
Proof. cbn. destruct (k a). reflexivity. Qed.

Lemma bind_ext {E A B} (c : M E A) (k k' : A -> M E B) :
  (forall a, k a = k' a) -> bind c k = bind c k'.
Proof. intros H. destruct c as [l [e | a]]; cbn; [reflexivity | now rewrite H]. Qed.

Lemma predict_loaded_body parse m sc labels (d : json) :
  first_missing required_fields d = inr None ->
  predict_loaded parse m sc labels (inr d) =
  bind (extract_values parse d) (classify m sc labels).
Proof.
  intros Hnone. unfold predict_loaded, extract_values.
  rewrite bind_lift_inr, Hnone, bind_lift_inr.
  rewrite !bind_assoc.
  apply bind_ext; intros temp. rewrite !bind_assoc.
  apply bind_ext; intros co2v. rewrite !bind_assoc.
  apply bind_ext; intros pm25v. rewrite !bind_assoc.
  apply bind_ext; intros hum. rewrite bind_ret.
  reflexivity.
Qed.

Lemma extract_values_ok parse (d : gmap string json) (vt vc vp vh : json)
    (t c p h : float) :
  d !! "temperature"%string = Some vt -> d !! "co2"%string = Some vc ->
  d !! "pm25"%string = Some vp -> d !! "humidity"%string = Some vh ->
  to_float parse vt = inr t -> to_float parse vc = inr c ->
  to_float parse vp = inr p -> to_float parse vh = inr h ->
  extract_values parse (JObj d) =
  ([EvFloat vt; EvFloat vc; EvFloat vp; EvFloat vh],
   inr {| temperature := t; co2 := c; pm25 := p; humidity := h |}).
Proof.
  intros Ht Hc Hp Hh Hft Hfc Hfp Hfh. unfold extract_values.
  rewrite (float_field_present parse d _ _ Ht), (float_field_present parse d _ _ Hc),
    (float_field_present parse d _ _ Hp), (float_field_present parse d _ _ Hh).
  rewrite Hft, Hfc, Hfp, Hfh. reflexivity.
Qed.

(** When the four fields are present and one of them does not coerce,
    the coercions stop at the first such field, in the order of the
    source, with the exception that [float] raised for it. *)
Lemma extract_values_fail parse (d : gmap string json) :
  (forall f, In f required_fields -> is_Some (d !! f)) ->
  (exists f v e, In f required_fields /\ d !! f = Some v /\ to_float parse v = inl e) ->
  exists l e,
    extract_values parse (JObj d) = (l, inl e)
    /\ Forall is_coercion l
    /\ exists f v, In f required_fields /\ d !! f = Some v /\ to_float parse v = inl e.
Proof.
  intros Hall Hbad.
  destruct (Hall "temperature"%string) as [vt Ht]; [cbn; tauto |].
  destruct (Hall "co2"%string) as [vc Hc]; [cbn; tauto |].
  destruct (Hall "pm25"%string) as [vp Hp]; [cbn; tauto |].
  destruct (Hall "humidity"%string) as [vh Hh]; [cbn; tauto |].
  unfold extract_values.
  rewrite (float_field_present parse d _ _ Ht), (float_field_present parse d _ _ Hc),
    (float_field_present parse d _ _ Hp), (float_field_present parse d _ _ Hh).
  assert (Hco : forall v, is_coercion (EvFloat v)) by (intros v; exists v; reflexivity).
  destruct (to_float parse vt) as [e | t] eqn:Hft.
  { exists [EvFloat vt], e. split_and!; [reflexivity | auto |].
    exists "temperature"%string, vt. cbn. tauto. }
  destruct (to_float parse vc) as [e | c] eqn:Hfc.
  { exists [EvFloat vt; EvFloat vc], e. split_and!; [reflexivity | auto |].
    exists "co2"%string, vc. cbn. tauto. }
  destruct (to_float parse vp) as [e | p] eqn:Hfp.
  { exists [EvFloat vt; EvFloat vc; EvFloat vp], e. split_and!; [reflexivity | auto |].
    exists "pm25"%string, vp. cbn. tauto. }
  destruct (to_float parse vh) as [e | h] eqn:Hfh.
  { exists [EvFloat vt; EvFloat vc; EvFloat vp; EvFloat vh], e.
    split_and!; [reflexivity | auto 6 |].
    exists "humidity"%string, vh. cbn. tauto. }
  exfalso. destruct Hbad as (f & v & e & Hf & Hv & He).
  destruct Hf as [<- | [<- | [<- | [<- | []]]]]; congruence.
Qed.

(** Scaling and inference: the scaler is called on the raw vector and the
    classifier on the scaled one, and on nothing else. *)
Lemma classify_calls (m : Classifier) (sc : StandardScaler) (labels : list string)
    (x : sample) (scaled : matrix) :
  transform sc [[temperature x; co2 x; pm25 x; humidity x]] = inr scaled ->
  exists rest r,
    classify m sc labels x =
      ([EvTransform [[temperature x; co2 x; pm25 x; humidity x]]; EvPredict scaled]
         ++ rest, r)
    /\ (rest = [] \/ rest = [EvPredictProba scaled]).
Proof.
  intros Htr. unfold classify. cbn zeta. rewrite Htr.
  cbn [bind emit lift app].
  destruct (clf_predict m scaled) as [e | preds].
  { exists [], (inl e). split; [reflexivity | now left]. }
  cbn [bind emit lift app].
  destruct (list_getitem preds 0) as [e | pred].
  { exists [], (inl e). split; [reflexivity | now left]. }
  cbn [bind emit lift app].
  destruct (clf_predict_proba m scaled) as [e | probas].
  { exists [EvPredictProba scaled], (inl e). split; [reflexivity | now right]. }
  cbn [bind emit lift app].
  destruct (list_getitem probas 0) as [e | probs].
  { exists [EvPredictProba scaled], (inl e). split; [reflexivity | now right]. }
  cbn [bind emit lift app].
  match goal with |- context [if ?b then ?x else ?y] => destruct (if b then x else y) as [e | lbl] end.
  { exists [EvPredictProba scaled], (inl e). split; [reflexivity | now right]. }
  cbn [bind emit lift app].
  destruct (Py.max probs) as [e | conf].
  { exists [EvPredictProba scaled], (inl e). split; [reflexivity | now right]. }
  cbn [bind emit lift app ret].
  eexists [EvPredictProba scaled], (inr _). split; [reflexivity | now right].
Qed.

(** When the scaler rejects the raw vector, nothing reaches the
    classifier. *)
Lemma classify_rejected (m : Classifier) (sc : StandardScaler) (labels : list string)
    (x : sample) (e : exn) :
  transform sc [[temperature x; co2 x; pm25 x; humidity x]] = inl e ->
  classify m sc labels x =
    ([EvTransform [[temperature x; co2 x; pm25 x; humidity x]]], inl e).
Proof. intros Htr. unfold classify. cbn zeta. rewrite Htr. reflexivity. Qed.

(** A scaler fitted on four features, on one row of four values. *)
Lemma transform_four (m0 m1 m2 m3 s0 s1 s2 s3 t c p h : float) :
  transform {| mean_ := [m0; m1; m2; m3]; scale_ := [s0; s1; s2; s3] |} [[t; c; p; h]] =
  if forallb (fun x => negb (PrimFloat.is_infinity x)) [t; c; p; h]
  then inr [[(t - m0) / s0; (c - m1) / s1; (p - m2) / s2; (h - m3) / s3]]%float
  else inl ValueError.
Proof.
  unfold transform, valid_row.
  cbn [forallb length mean_ scale_ Nat.eqb andb].
  destruct (negb (PrimFloat.is_infinity t) && _); reflexivity.
Qed.

(** The label chosen for a class index that is not negative. *)
Lemma label_of_nonnegative_index (labels : list string) (pred : Z) (lbl : string) :
  0 <= pred ->
  (if pred <? Z.of_nat (length labels)
   then list_getitem labels pred
   else inr "Unknown"%string) = inr lbl ->
  (pred < Z.of_nat (length labels) /\ labels !! Z.to_nat pred = Some lbl)
  \/ (Z.of_nat (length labels) <= pred /\ lbl = "Unknown"%string).
Proof.
  intros Hpos. destruct (Z.ltb_spec pred (Z.of_nat (length labels))) as [Hlt | Hge].
  - unfold list_getitem.
    destruct (Z.ltb_spec pred 0) as [? | _]; [lia |].
    destruct (Z.ltb_spec pred 0) as [? | _]; [lia |].
    destruct (Z.leb_spec (Z.of_nat (length labels)) pred) as [? | _]; [lia |].
    cbn [orb]. destruct (labels !! Z.to_nat pred); [| discriminate].
    intros [= ->]. left. auto.
  - intros [= <-]. right. auto.
Qed.

End ApiLemmas.



Import Api ApiPhases ApiLemmas.

(** C1.  For a request whose four fields are present and coerce to floats,
    any vector the classifier is called with is the one assembled in the
    order temperature, co2, pm25, humidity, each component being
    [(value - mean) / std] with the scaler's fitted parameters; when the
    four values are finite, as the scaler's input validation asks, the
    classifier is called with it.  The calls made for the request are the
    same wherever it stands among other requests. *)
Theorem C1_scaled_vector
    parse (g : globals) (m : Classifier) (m0 m1 m2 m3 s0 s1 s2 s3 : float)
    (d : gmap string json) (vt vc vp vh : json) (t c p h : float)
    (before after : list http_request) :
  model g = Some m ->
  scaler g = Some {| mean_ := [m0; m1; m2; m3]; scale_ := [s0; s1; s2; s3] |} ->
  d !! "temperature"%string = Some vt -> d !! "co2"%string = Some vc ->
  d !! "pm25"%string = Some vp -> d !! "humidity"%string = Some vh ->
  to_float parse vt = inr t -> to_float parse vc = inr c ->
  to_float parse vp = inr p -> to_float parse vh = inr h ->
  let scaled := [[(t - m0) / s0; (c - m1) / s1; (p - m2) / s2; (h - m3) / s3]]%float in
  exists log resp,
    predict parse g (inr (JObj d)) = (log, resp)
    /\ (forall X, In (EvPredict X) log \/ In (EvPredictProba X) log -> X = scaled)
    /\ (forallb (fun x => negb (PrimFloat.is_infinity x)) [t; c; p; h] = true ->
        exists rest,
          log = [EvFloat vt; EvFloat vc; EvFloat vp; EvFloat vh;
                 EvTransform [[t; c; p; h]]; EvPredict scaled] ++ rest)
    /\ serve parse g (before ++ PostPredict (inr (JObj d)) :: after) !! length before
       = Some (log, resp).
Proof.
  intros Hm Hs Ht Hc Hp Hh Hft Hfc Hfp Hfh scaled.
  assert (Hserve : serve parse g (before ++ PostPredict (inr (JObj d)) :: after)
                     !! length before = Some (predict parse g (inr (JObj d)))).
  { unfold serve. rewrite list_lookup_fmap, list_lookup_middle by reflexivity.
    reflexivity. }
  rewrite Hserve.
  rewrite (predict_ready parse g m _ _ Hm Hs).
  rewrite predict_loaded_body.
  2:{ apply first_missing_none. intros f [<- | [<- | [<- | [<- | []]]]]; eauto. }
  rewrite (extract_values_ok parse d vt vc vp vh t c p h) by assumption.
  pose proof (transform_four m0 m1 m2 m3 s0 s1 s2 s3 t c p h) as Htr.
  destruct (forallb (fun x => negb (PrimFloat.is_infinity x)) [t; c; p; h]) eqn:Hfin.
  - destruct (classify_calls m {| mean_ := [m0; m1; m2; m3]; scale_ := [s0; s1; s2; s3] |}
                (label_classes g)
                {| temperature := t; co2 := c; pm25 := p; humidity := h |} scaled Htr)
      as (rest & r & Hcl & Hrest).
    cbn [temperature co2 pm25 humidity] in Hcl.
    rewrite bind_inr, Hcl. cbn [fst snd app].
    destruct r as [e | resp]; cbn [try_except]; eexists _, _; split_and!.
    all: try reflexivity.
    all: try (intros _; exists rest; reflexivity).
    all: intros X HX.
    all: destruct Hrest as [-> | ->]; cbn in HX;
        decompose [or] HX; try discriminate; try contradiction;
        match goal with Heq : _ = _ |- _ => injection Heq as <- end; reflexivity.
  - rewrite bind_inr.
    rewrite (classify_rejected m _ (label_classes g)
               {| temperature := t; co2 := c; pm25 := p; humidity := h |} ValueError Htr).
    cbn [fst snd app try_except].
    eexists _, _. split_and!; [reflexivity | | discriminate | reflexivity].
    intros X HX. cbn in HX. decompose [or] HX; try discriminate; contradiction.
Qed.

Lemma C1_scaled_vector_witness :
  exists log resp,
    predict Demo.float_of_string Demo.ready Demo.sample_request = (log, resp)
    /\ (forall X, In (EvPredict X) log \/ In (EvPredictProba X) log ->
          X = [[(26.5 - 25) / 2; (450 - 500) / 100; (35 - 30) / 10; (65 - 60) / 5]]%float)
    /\ (forallb (fun x => negb (PrimFloat.is_infinity x)) [26.5; 450; 35; 65]%float = true ->
        exists rest,
          log = [EvFloat (JFloat 26.5); EvFloat (JInt 450); EvFloat (JInt 35);
                 EvFloat (JInt 65);
                 EvTransform [[26.5; 450; 35; 65]]%float;
                 EvPredict [[(26.5 - 25) / 2; (450 - 500) / 100; (35 - 30) / 10;
                             (65 - 60) / 5]]%float] ++ rest)
    /\ serve Demo.float_of_string Demo.ready
         ([GetHealth] ++ PostPredict Demo.sample_request :: [GetIndex]) !! 1%nat
       = Some (log, resp).
Proof.
  apply (C1_scaled_vector Demo.float_of_string Demo.ready Demo.clf
           25 500 30 60 2 100 10 5 Demo.sample_fields
           (JFloat 26.5) (JInt 450) (JInt 35) (JInt 65) 26.5 450 35 65
           [GetHealth] [GetIndex]); reflexivity.
Defined.





(** C3.  The handler at class indices below zero.  With two known labels,
    a classifier answering [-1] gets a successful response whose label is
    the last class name, not ["Unknown"], although [-1] is outside
    [0, number of labels); a classifier answering [-3] gets the 500
    response of an [IndexError]; an index at or above the number of labels
    gets ["Unknown"]. *)
Theorem C3_negative_index_is_not_unknown :
  (exists pb,
      snd (predict Demo.float_of_string (Demo.ready_index (-1)) Demo.sample_request)
        = {| status := 200; payload := Prediction pb |}
      /\ prediction pb = -1
      /\ label pb = "TCI Comfort & IAQI Moderate"%string
      /\ label pb <> "Unknown"%string
      /\ ~ (0 <= prediction pb < Z.of_nat (length Demo.labels)))
  /\ snd (predict Demo.float_of_string (Demo.ready_index (-3)) Demo.sample_request)
       = {| status := 500; payload := Error (StrOf IndexError) |}
  /\ (exists pb,
        snd (predict Demo.float_of_string (Demo.ready_index 2) Demo.sample_request)
          = {| status := 200; payload := Prediction pb |}
        /\ prediction pb = 2 /\ label pb = "Unknown"%string).
Proof.
  split_and!.
  - eexists. split_and!.
    + vm_compute. reflexivity.
    + reflexivity.
    + reflexivity.
    + discriminate.
    + cbn. lia.
  - vm_compute. reflexivity.
  - eexists. split_and!; [vm_compute; reflexivity | reflexivity | reflexivity].
Qed.

(** C4.  In the Ready state, a JSON object that omits exactly one of the
    four required fields gets the 400 response ["Missing field: <name>"]
    naming that field, whatever the other three hold, and the handler makes
    no coercion, scaling or inference call. *)
Theorem C4_missing_field
    parse (g : globals) (m : Classifier) (sc : StandardScaler)
    (d : gmap string json) (f : string) :
  model g = Some m -> scaler g = Some sc ->
  In f required_fields ->
  d !! f = None ->
  (forall f', In f' required_fields -> f' <> f -> is_Some (d !! f')) ->
  predict parse g (inr (JObj d)) =
    ([], {| status := 400; payload := Error (Literal ("Missing field: " ++ f)) |}).
Proof.
  intros Hm Hs Hf Hnone Hothers.
  rewrite (predict_ready parse g m sc _ Hm Hs). unfold predict_loaded.
  rewrite bind_lift_inr.
  assert (Hmiss : first_missing required_fields (JObj d) = inr (Some f)).
  { assert (Hpres : forall f', In f' required_fields -> f' <> f ->
                               contains (JObj d) f' = inr true).
    { intros f' Hin Hne. destruct (Hothers f' Hin Hne) as [v Hv].
      exact (contains_present d f' v Hv). }
    pose proof (contains_absent d f Hnone) as Habs.
    unfold required_fields in *. cbn [first_missing].
    destruct Hf as [<- | [<- | [<- | [<- | []]]]];
      repeat first
        [ rewrite Habs; reflexivity
        | rewrite Hpres by (first [cbn; tauto | discriminate]) ]. }
  rewrite Hmiss, bind_lift_inr. reflexivity.
Qed.

Lemma C4_missing_field_witness :
  predict Demo.float_of_string Demo.ready (inr (JObj Demo.no_pm25)) =
    ([], {| status := 400; payload := Error (Literal "Missing field: pm25") |}).
Proof.
  apply (C4_missing_field Demo.float_of_string Demo.ready Demo.clf Demo.sc
           Demo.no_pm25 "pm25"%string).
  - reflexivity.
  - reflexivity.
  - cbn. tauto.
  - reflexivity.
  - intros f' [<- | [<- | [<- | [<- | []]]]] Hne;
      first [ contradiction | eexists; vm_compute; reflexivity ].
Defined.

(** A bundle dict with a classifier and no scaler fails to load, predict
    answers 500, and yet the health response reports the classifier as
    loaded. *)
Lemma C5_partial_load_counterexample :
  let g := startup Demo.model_only in
  snd (load_model_bundle Demo.model_only initial_globals) = false
  /\ (model g = None \/ scaler g = None)
  /\ predict Demo.float_of_string g Demo.sample_request =
       ([], {| status := 500; payload := Error (Literal "Model or scaler not loaded") |})
  /\ ~ health_reports_nothing_loaded g
  /\ payload (health_check g) =
       Health {| status_text := "healthy"; model_loaded := true; scaler_loaded := false;
                 model_type := "AdaBoost + StandardScaler" |}.
Proof.
  cbv zeta. split_and!.
  - reflexivity.
  - right. reflexivity.
  - reflexivity.
  - unfold health_reports_nothing_loaded. vm_compute. discriminate.
  - reflexivity.
Qed.

(** C5, amended.  When the classifier or the scaler is absent, every
    predict call gets the 500 response ["Model or scaler not loaded"] and
    makes no call at all.  Every health call, in any state, gets a 200
    response, makes no call, and reports [model_loaded] and [scaler_loaded]
    as the presence of the classifier and of the scaler, each on its own;
    both are false when the bundle file could not be opened or unpickled. *)
Theorem C5_unavailable_state parse (g : globals) (req : result json) :
  model g = None \/ scaler g = None ->
  predict parse g req =
    ([], {| status := 500; payload := Error (Literal "Model or scaler not loaded") |})
  /\ (forall g', exists h,
        handle parse g' GetHealth = ([], {| status := 200; payload := Health h |})
        /\ (model_loaded h = true <-> model g' <> None)
        /\ (scaler_loaded h = true <-> scaler g' <> None))
  /\ (forall e, health_reports_nothing_loaded (startup (inl e))).
Proof.
  intros Habsent. split_and!.
  - unfold predict. destruct Habsent as [-> | ->]; [reflexivity |].
    destruct (model g); reflexivity.
  - intros g'. eexists. split_and!; [reflexivity | |]; cbn.
    + rewrite bool_decide_eq_true. rewrite <- not_eq_None_Some. reflexivity.
    + rewrite bool_decide_eq_true. rewrite <- not_eq_None_Some. reflexivity.
  - intros e. reflexivity.
Qed.

Lemma C5_unavailable_state_witness :
  predict Demo.float_of_string (startup (inl (LibraryError "No such file or directory")))
    Demo.sample_request =
    ([], {| status := 500; payload := Error (Literal "Model or scaler not loaded") |})
  /\ (forall g', exists h,
        handle Demo.float_of_string g' GetHealth
          = ([], {| status := 200; payload := Health h |})
        /\ (model_loaded h = true <-> model g' <> None)
        /\ (scaler_loaded h = true <-> scaler g' <> None))
  /\ (forall e, health_reports_nothing_loaded (startup (inl e))).
Proof.
  apply (C5_unavailable_state Demo.float_of_string
           (startup (inl (LibraryError "No such file or directory")))
           Demo.sample_request).
  left. reflexivity.
Defined.

(** C6.  In the Ready state, a JSON object with the four fields present
    and at least one value that [float] rejects gets a 500 response whose
    error is the text of the exception [float] raised for the first such
    field, not a 400 missing-field response; only coercions were attempted
    (no scaling, no inference); and the other requests of a sequence get
    the responses they would get without it. *)
Theorem C6_non_numeric_field
    parse (g : globals) (m : Classifier) (sc : StandardScaler)
    (d : gmap string json) (before after : list http_request) :
  model g = Some m -> scaler g = Some sc ->
  (forall f, In f required_fields -> is_Some (d !! f)) ->
  (exists f v e, In f required_fields /\ d !! f = Some v /\ to_float parse v = inl e) ->
  exists log e,
    predict parse g (inr (JObj d)) =
      (log, {| status := 500; payload := Error (StrOf e) |})
    /\ (exists f v, In f required_fields /\ d !! f = Some v /\ to_float parse v = inl e)
    /\ Forall is_coercion log
    /\ serve parse g (before ++ PostPredict (inr (JObj d)) :: after) =
       serve parse g before
         ++ (log, {| status := 500; payload := Error (StrOf e) |})
         :: serve parse g after.
Proof.
  intros Hm Hs Hall Hbad.
  destruct (extract_values_fail parse d Hall Hbad) as (l & e & Hex & Hlog & Hwhy).
  assert (Hrun : predict parse g (inr (JObj d)) =
                 (l, {| status := 500; payload := Error (StrOf e) |})).
  { rewrite (predict_ready parse g m sc _ Hm Hs).
    rewrite predict_loaded_body by (apply first_missing_none; exact Hall).
    rewrite Hex. reflexivity. }
  exists l, e. split_and!; [exact Hrun | exact Hwhy | exact Hlog |].
  unfold serve. rewrite map_app. cbn [map handle]. rewrite Hrun. reflexivity.
Qed.

Lemma C6_non_numeric_field_witness :
  exists log e,
    predict Demo.float_of_string Demo.ready (inr (JObj Demo.bad_co2)) =
      (log, {| status := 500; payload := Error (StrOf e) |})
    /\ (exists f v, In f required_fields /\ Demo.bad_co2 !! f = Some v
                    /\ to_float Demo.float_of_string v = inl e)
    /\ Forall is_coercion log
    /\ serve Demo.float_of_string Demo.ready
         ([GetHealth] ++ PostPredict (inr (JObj Demo.bad_co2))
            :: [PostPredict Demo.sample_request]) =
       serve Demo.float_of_string Demo.ready [GetHealth]
         ++ (log, {| status := 500; payload := Error (StrOf e) |})
         :: serve Demo.float_of_string Demo.ready [PostPredict Demo.sample_request].
Proof.
  apply (C6_non_numeric_field Demo.float_of_string Demo.ready Demo.clf Demo.sc
           Demo.bad_co2 [GetHealth] [PostPredict Demo.sample_request]).
  - reflexivity.
  - reflexivity.
  - intros f [<- | [<- | [<- | [<- | []]]]]; eexists; vm_compute; reflexivity.
  - exists "co2"%string, (JStr "high"), ValueError.
    split_and!; [cbn; tauto | reflexivity | reflexivity].
Defined.

(** The body [[]] (a JSON array) gets the 400 response for the first
    field, and so does the body ["abc"] (a JSON string). *)
Lemma C10_array_body_counterexample :
  predict Demo.float_of_string Demo.ready (inr (JArr [])) =
    ([], {| status := 400; payload := Error (Literal "Missing field: temperature") |})
  /\ predict Demo.float_of_string Demo.ready (inr (JStr "abc")) =
    ([], {| status := 400; payload := Error (Literal "Missing field: temperature") |})
  /\ ~ missing_field_only_for_objects Demo.float_of_string Demo.ready.
Proof.
  split_and!; [reflexivity | reflexivity |].
  intros H. destruct (H (JArr []) eq_refl) as [m Hm]. discriminate.
Qed.

(** C10, amended.  In the Ready state a body that parses to [None] gets a
    500 response carrying the text of the [TypeError] of the membership
    test, not a 400 response, and no call is made.  The 400 response is
    reached only when the body was parsed and is a JSON object, array or
    string, the values the membership test accepts. *)
Theorem C10_null_body
    parse (g : globals) (m : Classifier) (sc : StandardScaler) :
  model g = Some m -> scaler g = Some sc ->
  predict parse g (inr JNull) =
    ([], {| status := 500; payload := Error (StrOf TypeError) |})
  /\ (forall req,
        status (snd (predict parse g req)) = 400 ->
        exists data, req = inr data
          /\ ((exists o, data = JObj o) \/ (exists l, data = JArr l)
              \/ (exists s, data = JStr s))).
Proof.
  intros Hm Hs. split.
  - rewrite (predict_ready parse g m sc _ Hm Hs). reflexivity.
  - intros req. rewrite (predict_ready parse g m sc _ Hm Hs).
    destruct req as [e | data]; [cbn; discriminate |].
    destruct data; try (cbn; discriminate); eauto 6.
Qed.

Lemma C10_null_body_witness :
  predict Demo.float_of_string Demo.ready (inr JNull) =
    ([], {| status := 500; payload := Error (StrOf TypeError) |})
  /\ (forall req,
        status (snd (predict Demo.float_of_string Demo.ready req)) = 400 ->
        exists data, req = inr data
          /\ ((exists o, data = JObj o) \/ (exists l, data = JArr l)
              \/ (exists s, data = JStr s))).
Proof.
  apply (C10_null_body Demo.float_of_string Demo.ready Demo.clf Demo.sc); reflexivity.
Defined.

(** ** The trainer *)

Module TrainerLemmas.

Import Trainer TrainerRuns.

(** Take a successful run apart, opening the tuples it binds on the way. *)
Ltac invert_pairs H :=
  repeat first
    [ progress ApiLemmas.invert_run H
    | match type of H with
      | context [match ?a with pair _ _ => _ end] => is_var a; destruct a
      end ].

Lemma train_completed (lib : Library) (path : string) (log : list Trainer.event)
    (clf : Classifier) (sc : StandardScaler) (le : LabelEncoder) :
  train_adaboost_model lib path = (log, inr (clf, sc, le)) ->
  exists r, completed lib path log clf sc le r.
Proof.
  intros H. unfold train_adaboost_model in H.
  invert_pairs H.
  apply ApiLemmas.ret_inv in H as [Hret ->]. injection Hret as -> -> ->.
  match goal with
  | Hf : scaler_fit_transform _ _ = _ |- _ =>
      unfold scaler_fit_transform in Hf; invert_pairs Hf;
      apply ApiLemmas.ret_inv in Hf as [Hret ->]; injection Hret as -> ->
  end.
  repeat match goal with
         | Ht : scaler_transform _ _ = _ |- _ =>
             unfold scaler_transform in Ht; invert_pairs Ht;
             apply ApiLemmas.lift_inr_inv in Ht as [Ht ->]
         end.
  subst. cbn [app].
  match goal with
  | H1 : to_numpy ?X = inr ?A, H2 : to_numpy ?X = inr ?B |- _ =>
      rewrite H1 in H2; injection H2 as <-
  end.
  eexists (Build_run _ _ _ _ _ _ _ _ _ _ _ _ _ _ _).
  unfold completed. cbn [run_df run_X run_labels run_y run_X_train run_X_test
    run_y_train run_y_test run_X_train_smote run_y_train_smote run_train_array
    run_test_array run_train_scaled run_test_scaled run_y_pred].
  split_and!; try eassumption. reflexivity.
Qed.

Lemma bind_emit {E B} (ev : E) (k : unit -> M E B) :
  bind (emit ev) k = (ev :: fst (k tt), snd (k tt)).
Proof. cbn. destruct (k tt). reflexivity. Qed.

Lemma has_column_false (df : DataFrame) (c : string) :
  has_column df c = false -> getitem_column df c = inl (KeyError [c]).
Proof.
  unfold has_column, getitem_column. destruct (column df c); [discriminate | reflexivity].
Qed.

End TrainerLemmas.

Import Trainer TrainerRuns TrainerLemmas.

(** C7.  In every completed run of the trainer the calls are, in this
    order: the stratified split with test size 0.2 and seed 42, then the
    oversampling with seed 42, then the scaler fit.  The oversampling is
    called once, on the training split; the scaler is fitted once, on the
    oversampled training features; and the scaler applied to the held-out
    features is that same fitted scaler. *)
Theorem C7_rebalance_after_split
    (lib : Library) (path : string) (log : list Trainer.event)
    (clf : Classifier) (sc : StandardScaler) (le : LabelEncoder) :
  train_adaboost_model lib path = (log, inr (clf, sc, le)) ->
  exists r,
    completed lib path log clf sc le r
    /\ (exists before after,
          log = before
                ++ [EvSplit (run_X r) (run_y r) 0.2%float 42 (run_y r);
                    EvSmote 42 (run_X_train r) (run_y_train r);
                    EvScalerFit (run_train_array r)]
                ++ after)
    /\ (forall seed X y, In (EvSmote seed X y) log ->
          seed = 42 /\ X = run_X_train r /\ y = run_y_train r)
    /\ (forall A, In (EvScalerFit A) log ->
          to_numpy (run_X_train_smote r) = inr A)
    /\ (forall sc' B, In (EvScalerTransform sc' B) log ->
          sc' = sc
          /\ (to_numpy (run_X_train_smote r) = inr B
              \/ to_numpy (run_X_test r) = inr B)).
Proof.
  intros H. destruct (train_completed lib path log clf sc le H) as [r Hr].
  exists r. split; [exact Hr |].
  destruct Hr as (_ & _ & _ & _ & _ & _ & Htrain & _ & _ & Htest & _ & _ & _ & Hlog).
  split_and!.
  - eexists [_; _], _. rewrite Hlog. reflexivity.
  - intros seed X y Hin. rewrite Hlog in Hin. cbn in Hin.
    decompose [or] Hin; try discriminate; try contradiction.
    match goal with Heq : EvSmote _ _ _ = EvSmote _ _ _ |- _ => injection Heq as <- <- <- end.
    auto.
  - intros A Hin. rewrite Hlog in Hin. cbn in Hin.
    decompose [or] Hin; try discriminate; try contradiction.
    match goal with Heq : EvScalerFit _ = EvScalerFit _ |- _ => injection Heq as <- end.
    exact Htrain.
  - intros sc' B Hin. rewrite Hlog in Hin. cbn in Hin.
    decompose [or] Hin; try discriminate; try contradiction;
      match goal with
      | Heq : EvScalerTransform _ _ = EvScalerTransform _ _ |- _ => injection Heq as <- <-
      end; auto.
Qed.

Lemma C7_rebalance_after_split_witness :
  exists r,
    completed Demo.lib "air_quality_with_labels.csv" (fst Demo.trained)
      Demo.clf Demo.trained_scaler {| classes_ := ["Good"; "Poor"]%string |} r
    /\ (exists before after,
          fst Demo.trained
          = before
            ++ [EvSplit (run_X r) (run_y r) 0.2%float 42 (run_y r);
                EvSmote 42 (run_X_train r) (run_y_train r);
                EvScalerFit (run_train_array r)]
            ++ after)
    /\ (forall seed X y, In (EvSmote seed X y) (fst Demo.trained) ->
          seed = 42 /\ X = run_X_train r /\ y = run_y_train r)
    /\ (forall A, In (EvScalerFit A) (fst Demo.trained) ->
          to_numpy (run_X_train_smote r) = inr A)
    /\ (forall sc' B, In (EvScalerTransform sc' B) (fst Demo.trained) ->
          sc' = Demo.trained_scaler
          /\ (to_numpy (run_X_train_smote r) = inr B
              \/ to_numpy (run_X_test r) = inr B)).
Proof.
  apply (C7_rebalance_after_split Demo.lib "air_quality_with_labels.csv").
  vm_compute. reflexivity.
Defined.

(** C8.  When the dataset lacks one of the five required columns, the
    trainer raises a [KeyError] that names missing required columns, and
    the only call it has made is the reading of the file: no label
    encoding, split, oversampling, scaling or classifier fit. *)
Theorem C8_missing_column_fails_fast
    (lib : Library) (path : string) (df : DataFrame) :
  read_csv lib path = inr df ->
  (exists c, In c required_columns /\ has_column df c = false) ->
  exists missing,
    train_adaboost_model lib path = ([EvReadCsv path], inl (KeyError missing))
    /\ missing <> []
    /\ (forall c, In c missing -> In c required_columns /\ has_column df c = false).
Proof.
  intros Hread (c & Hc & Habsent).
  unfold train_adaboost_model. rewrite bind_emit, Hread, ApiLemmas.bind_lift_inr.
  unfold getitem_columns.
  destruct (List.filter (fun c => negb (has_column df c)) feature_columns)
    as [|c0 rest] eqn:Hfilter.
  - rewrite ApiLemmas.bind_lift_inr.
    assert (Hlabel : has_column df label_column = false).
    { unfold required_columns in Hc. apply in_app_or in Hc as [Hc | [<- | []]];
        [| exact Habsent].
      assert (Hin : In c (List.filter (fun c => negb (has_column df c)) feature_columns)).
      { apply filter_In. split; [exact Hc | now rewrite Habsent]. }
      rewrite Hfilter in Hin. destruct Hin. }
    rewrite (has_column_false df label_column Hlabel).
    exists [label_column]. split_and!; [reflexivity | discriminate |].
    intros c' [<- | []]. split; [| exact Hlabel].
    unfold required_columns. apply in_or_app. right. now left.
  - exists (c0 :: rest). split_and!; [reflexivity | discriminate |].
    intros c' Hin. rewrite <- Hfilter in Hin. apply filter_In in Hin as [Hin Hneg].
    split.
    + unfold required_columns. apply in_or_app. now left.
    + now destruct (has_column df c').
Qed.

Lemma C8_missing_column_fails_fast_witness :
  exists missing,
    train_adaboost_model Demo.lib "no_humidity.csv"
    = ([EvReadCsv "no_humidity.csv"], inl (KeyError missing))
    /\ missing <> []
    /\ (forall c, In c missing ->
          In c required_columns
          /\ has_column [("air_temperature", map CNum [24; 26]);
                         ("CO2", map CNum [400; 450]);
                         ("pm2_5", map CNum [10; 35]);
                         ("Air_Quality_Label", map CText ["Good"; "Poor"])]%string%float c
             = false).
Proof.
  apply (C8_missing_column_fails_fast Demo.lib "no_humidity.csv").
  - reflexivity.
  - exists "humidity"%string. split; [cbn; tauto | reflexivity].
Defined.

(** ** Further properties of the service *)

Module ApiRuns.

Import Api ApiPhases ApiLemmas.

Lemma float_field_inv parse (data : json) (key : string) (l : list Api.event) (x : float) :
  float_field parse data key = (l, inr x) ->
  exists d v, data = JObj d /\ d !! key = Some v /\ to_float parse v = inr x
              /\ l = [EvFloat v].
Proof.
  intros H. unfold float_field in H. invert_run H.
  apply lift_inr_inv in H as [H ->]. subst.
  destruct data; try discriminate. cbn in Hstep.
  destruct (m !! key) as [v |] eqn:Hv; [| discriminate].
  injection Hstep as <-. eauto 10.
Qed.

(** A successful run of the handler, taken apart. *)
Lemma predict_success_inv parse (g : globals) (req : result json)
    (log : list Api.event) (pb : prediction_body) :
  predict parse g req = (log, {| status := 200; payload := Prediction pb |}) ->
  exists m sc d vt vc vp vh scaled preds probas probs,
    model g = Some m /\ scaler g = Some sc /\ req = inr (JObj d)
    /\ d !! "temperature"%string = Some vt /\ d !! "co2"%string = Some vc
    /\ d !! "pm25"%string = Some vp /\ d !! "humidity"%string = Some vh
    /\ to_float parse vt = inr (temperature (input pb))
    /\ to_float parse vc = inr (co2 (input pb))
    /\ to_float parse vp = inr (pm25 (input pb))
    /\ to_float parse vh = inr (humidity (input pb))
    /\ transform sc [[temperature (input pb); co2 (input pb); pm25 (input pb);
                      humidity (input pb)]] = inr scaled
    /\ clf_predict m scaled = inr preds /\ list_getitem preds 0 = inr (prediction pb)
    /\ clf_predict_proba m scaled = inr probas /\ list_getitem probas 0 = inr probs
    /\ (if prediction pb <? Z.of_nat (length (label_classes g))
        then list_getitem (label_classes g) (prediction pb)
        else inr "Unknown"%string) = inr (label pb)
    /\ Py.max probs = inr (confidence pb)
    /\ probabilities pb = build_prob_dict 0 (label_classes g) probs ∅
    /\ log = [EvFloat vt; EvFloat vc; EvFloat vp; EvFloat vh;
              EvTransform [[temperature (input pb); co2 (input pb); pm25 (input pb);
                            humidity (input pb)]];
              EvPredict scaled; EvPredictProba scaled].
Proof.
  intros Hrun. unfold predict in Hrun.
  destruct (model g) as [m|] eqn:Hm; [| discriminate].
  destruct (scaler g) as [sc|] eqn:Hs; [| discriminate].
  destruct (predict_loaded parse m sc (label_classes g) req) as [l [e | r]] eqn:Hl;
    cbn in Hrun; [discriminate |].
  injection Hrun as -> ->.
  unfold predict_loaded in Hl.
  invert_run Hl.
  match type of Hl with
  | match ?o with Some _ => _ | None => _ end = _ =>
      destruct o as [f |]; [apply ret_inv in Hl as [[=] _] |]
  end.
  invert_run Hl.
  apply ret_inv in Hl as [Hresp ->].
  injection Hresp as <-.
  repeat match goal with
         | Hf : float_field _ _ _ = _ |- _ =>
             apply float_field_inv in Hf; destruct Hf as (? & ? & ? & ? & ? & ?)
         end.
  subst.
  repeat match goal with
         | Heq : JObj _ = JObj _ |- _ => injection Heq as ->
         end.
  cbn [input temperature co2 pm25 humidity prediction label confidence probabilities app].
  do 11 eexists. split_and!; try eassumption; reflexivity.
Qed.

End ApiRuns.

(** ** Further properties of the trainer *)

Module TrainerRunsAny.

Import Trainer TrainerRuns TrainerLemmas.

(** An event logged by [bind c k] was logged by [c], or [c] returned and
    [k] logged it. *)
Lemma in_bind_inv {E A B} (c : M E A) (k : A -> M E B) (ev : E) :
  In ev (fst (bind c k)) ->
  In ev (fst c) \/ exists a, snd c = inr a /\ In ev (fst (k a)).
Proof.
  destruct c as [l1 [e | a]]; cbn; [now left |].
  destruct (k a) as [l2 r] eqn:Hk. cbn. intros Hin.
  apply in_app_or in Hin as [Hin | Hin]; [now left |].
  right. exists a. rewrite Hk. auto.
Qed.

(** Follow an event of a log through a chain of binds. *)
Ltac peel H :=
  repeat first
    [ match type of H with
      | In _ (fst (bind _ _)) =>
          let a := fresh "a" in
          let Ha := fresh "Hret" in
          apply in_bind_inv in H; destruct H as [H | (a & Ha & H)];
          [ | cbn [snd lift emit] in Ha; try (injection Ha as Ha) ]
      end
    | match type of H with
      | context [match ?a with pair _ _ => _ end] => is_var a; destruct a
      end ].

Lemma scaler_transform_ret (sc : StandardScaler) (X : DataFrame) (B : matrix) :
  snd (scaler_transform sc X) = inr B ->
  exists A, to_numpy X = inr A /\ transform sc A = inr B.
Proof.
  destruct (scaler_transform sc X) as [l r] eqn:H. cbn. intros ->.
  unfold scaler_transform in H. invert_pairs H.
  apply ApiLemmas.lift_inr_inv in H as [H ->]. eauto.
Qed.

Lemma scaler_fit_transform_ret (lib : Library) (X : DataFrame)
    (sc : StandardScaler) (Xs : matrix) :
  snd (scaler_fit_transform lib X) = inr (sc, Xs) ->
  exists A, to_numpy X = inr A /\ scaler_fit lib A = inr sc /\ transform sc A = inr Xs.
Proof.
  destruct (scaler_fit_transform lib X) as [l r] eqn:H. cbn. intros ->.
  unfold scaler_fit_transform in H. invert_pairs H.
  apply ApiLemmas.ret_inv in H as [Hret ->]. injection Hret as -> ->.
  match goal with
  | Ht : scaler_transform _ _ = _ |- _ =>
      apply (f_equal snd) in Ht; cbn [snd] in Ht;
      apply scaler_transform_ret in Ht; destruct Ht as (A' & HA' & Htr)
  end.
  match goal with
  | H1 : to_numpy ?X = inr ?A, H2 : to_numpy ?X = inr ?B |- _ =>
      rewrite H1 in H2; injection H2 as <-
  end.
  eauto.
Qed.

(** Events that are not the one looked for. *)
Ltac not_this H :=
  solve [ cbn in H; decompose [or] H; first [discriminate | contradiction] ].

(** Follow an event through the whole trainer. *)
Ltac peel_trainer H :=
  unfold train_adaboost_model in H; peel H;
  try (unfold scaler_fit_transform in H; peel H);
  try (unfold scaler_transform in H; peel H);
  try not_this H;
  repeat match goal with
         | Hr : snd (scaler_fit_transform _ _) = inr _ |- _ =>
             apply scaler_fit_transform_ret in Hr; destruct Hr as (? & ? & ? & ?)
         | Hr : snd (scaler_transform _ _) = inr _ |- _ =>
             apply scaler_transform_ret in Hr; destruct Hr as (? & ? & ?)
         end.

End TrainerRunsAny.

Import TrainerMain TrainerRunsAny.

(** X1.  In every run of the trainer, completed or not: the oversampling
    is only ever called with seed 42 on the training part that the split
    returned, and the scaler is only ever fitted on the array of the
    features that this oversampling returned. *)
Theorem X1_resampling_and_fit_provenance (lib : Library) (path : string) :
  let log := fst (train_adaboost_model lib path) in
  (forall seed X y, In (EvSmote seed X y) log ->
     seed = 42
     /\ exists Xall yall Xte yte,
          train_test_split lib Xall yall 0.2%float 42 yall = inr (X, Xte, y, yte))
  /\ (forall A, In (EvScalerFit A) log ->
       exists Xall yall Xtr Xte ytr yte Xs ys,
         train_test_split lib Xall yall 0.2%float 42 yall = inr (Xtr, Xte, ytr, yte)
         /\ fit_resample lib 42 Xtr ytr = inr (Xs, ys)
         /\ to_numpy Xs = inr A).
Proof.
  cbv zeta. split.
  - intros seed X y Hin. peel_trainer Hin.
    cbn in Hin. destruct Hin as [Heq | []]. injection Heq as <- <- <-.
    split; [reflexivity | eauto].
  - intros A Hin. peel_trainer Hin.
    cbn in Hin. destruct Hin as [Heq | []]. injection Heq as <-.
    do 8 eexists. split_and!; eassumption.
Qed.

(** X2.  In every run of the trainer, completed or not: the classifier is
    only ever fitted, with seed 42, on the scaled array of the oversampled
    training features together with the oversampled labels; and every
    metric compares the held-out labels of the split with the classifier's
    predictions on the scaled held-out features. *)
Theorem X2_fit_and_evaluation_provenance (lib : Library) (path : string) :
  let log := fst (train_adaboost_model lib path) in
  (forall seed A y, In (EvAdaBoostFit seed A y) log ->
     seed = 42
     /\ exists Xtr ytr Xs A0 sc,
          fit_resample lib 42 Xtr ytr = inr (Xs, y)
          /\ to_numpy Xs = inr A0
          /\ scaler_fit lib A0 = inr sc
          /\ transform sc A0 = inr A)
  /\ (forall name y_true y_pred, In (EvMetric name y_true y_pred) log ->
       exists Xall yall Xtr Xte ytr B0 B sc A0 A y clf,
         train_test_split lib Xall yall 0.2%float 42 yall = inr (Xtr, Xte, ytr, y_true)
         /\ scaler_fit lib A0 = inr sc
         /\ to_numpy Xte = inr B0
         /\ transform sc B0 = inr B
         /\ adaboost_fit lib 42 A y = inr clf
         /\ clf_predict clf B = inr y_pred).
Proof.
  cbv zeta. split.
  - intros seed A y Hin. peel_trainer Hin.
    cbn in Hin. destruct Hin as [Heq | []]. injection Heq as <- <- <-.
    split; [reflexivity |]. do 5 eexists. split_and!; eassumption.
  - intros name y_true y_pred Hin. peel_trainer Hin.
    all: cbn in Hin; destruct Hin as [Heq | []]; injection Heq as <- <- <-.
    all: do 12 eexists; split_and!; eassumption.
Qed.

Lemma filter_nil_inv {A} (f : A -> bool) (l : list A) :
  List.filter f l = [] -> forall x, In x l -> f x = false.
Proof.
  intros Hnil x Hx. destruct (f x) eqn:Hfx; [| reflexivity].
  assert (Hin : In x (List.filter f l)) by (apply filter_In; auto).
  rewrite Hnil in Hin. destruct Hin.
Qed.

(** A column selection that succeeds returns the requested names in the
    requested order, each with the cells the frame holds under that name. *)
Lemma getitem_columns_inr (df : DataFrame) (cs : list string) (X : DataFrame) :
  getitem_columns df cs = inr X ->
  map fst X = cs /\ forall c col, In (c, col) X -> column df c = Some col.
Proof.
  unfold getitem_columns.
  destruct (List.filter (fun c => negb (has_column df c)) cs) eqn:Hf; [| discriminate].
  intros [= <-]. split.
  - rewrite map_map. cbn. apply map_id.
  - intros c col Hin. apply in_map_iff in Hin as (c' & [= <- <-] & Hc').
    pose proof (filter_nil_inv _ _ Hf c' Hc') as Hhas.
    unfold has_column in Hhas. destruct (column df c'); [reflexivity | discriminate].
Qed.

(** X3.  In every run of the trainer, the split is only ever called with
    test size 0.2, seed 42 and stratification by the encoded labels, on
    the four columns air_temperature, CO2, pm2_5, humidity in that order,
    each holding the cells of the file's column of that name; the labels
    are the encoding of the file's Air_Quality_Label column. *)
Theorem X3_split_arguments (lib : Library) (path : string)
    (X : DataFrame) (y : list Z) (test_size : float) (seed : Z) (stratify : list Z) :
  In (EvSplit X y test_size seed stratify) (fst (train_adaboost_model lib path)) ->
  test_size = 0.2%float /\ seed = 42 /\ stratify = y
  /\ map fst X = ["air_temperature"; "CO2"; "pm2_5"; "humidity"]%string
  /\ exists df labels le,
       read_csv lib path = inr df
       /\ (forall c col, In (c, col) X -> column df c = Some col)
       /\ column df "Air_Quality_Label" = Some labels
       /\ fit_transform_labels lib labels = inr (le, y).
Proof.
  intros Hin. peel_trainer Hin.
  cbn in Hin. destruct Hin as [Heq | []]. injection Heq as <- <- <- <- <-.
  match goal with
  | Hc : getitem_columns _ _ = inr _ |- _ =>
      apply getitem_columns_inr in Hc; destruct Hc as [Hnames Hcells]
  end.
  split_and!; try reflexivity; [exact Hnames |].
  do 3 eexists. split_and!; try eassumption.
  match goal with
  | Hl : getitem_column ?df _ = inr ?labels |- column ?df _ = Some ?labels =>
      unfold getitem_column, label_column in Hl;
      destruct (column df "Air_Quality_Label"); [injection Hl as -> | discriminate]
  end.
  reflexivity.
Qed.

Lemma X3_split_arguments_witness :
  0.2%float = 0.2%float /\ 42 = 42 /\ MainDemo.demo_codes = MainDemo.demo_codes
  /\ map fst MainDemo.demo_features = ["air_temperature"; "CO2"; "pm2_5"; "humidity"]%string
  /\ exists df labels le,
       read_csv Demo.lib "air_quality_with_labels.csv" = inr df
       /\ (forall c col, In (c, col) MainDemo.demo_features -> column df c = Some col)
       /\ column df "Air_Quality_Label" = Some labels
       /\ fit_transform_labels Demo.lib labels = inr (le, MainDemo.demo_codes).
Proof.
  apply (X3_split_arguments Demo.lib "air_quality_with_labels.csv"
           MainDemo.demo_features MainDemo.demo_codes 0.2%float 42 MainDemo.demo_codes).
  vm_compute. tauto.
Defined.

Import ApiRuns ApiShapes.

(** X4.  [load_model_bundle] returns [True] exactly when the file could be
    unpickled and the dict holds the keys model, scaler, classes and
    feature_names; the module variables are then that dict, its
    classifier, its scaler and its class names. *)
Theorem X4_load_succeeds_iff (file : result bundle_dict) (g g' : globals) :
  load_model_bundle file g = (g', true) <->
  exists b m s cs fn,
    file = inr b
    /\ bd_model b = Some m /\ bd_scaler b = Some s
    /\ bd_classes b = Some cs /\ bd_feature_names b = Some fn
    /\ g' = {| bundle := Some b; model := Some m; scaler := Some s;
               label_classes := cs |}.
Proof.
  unfold load_model_bundle. split.
  - destruct file as [e | b]; [discriminate |].
    destruct (bd_model b) as [m |] eqn:Hm; [| discriminate].
    destruct (bd_scaler b) as [s |] eqn:Hs; [| discriminate].
    destruct (bd_classes b) as [cs |] eqn:Hcs; [| discriminate].
    destruct (bd_feature_names b) as [fn |] eqn:Hfn; [| discriminate].
    intros [= <-]. exists b, m, s, cs, fn. split_and!; first [assumption | reflexivity].
  - intros (b & m & s & cs & fn & -> & -> & -> & -> & -> & ->). reflexivity.
Qed.

Lemma list_getitem_nil {A} (i : Z) : list_getitem (@nil A) i = inl IndexError.
Proof.
  unfold list_getitem. cbn [length]. change (Z.of_nat 0) with 0.
  destruct (Z.ltb_spec i 0) as [Hneg | Hpos].
  - rewrite Z.add_0_r. destruct (Z.ltb_spec i 0); [reflexivity | lia].
  - destruct (Z.ltb_spec i 0); [lia |].
    destruct (Z.leb_spec 0 i); [reflexivity | lia].
Qed.

(** X5.  When the service runs with no class names (the initial value,
    kept when the bundle dict lacks its classes key), every successful
    predict response carries the label ["Unknown"], an index that is not
    negative and an empty probabilities object. *)
Theorem X5_no_class_names
    parse (g : globals) (req : result json) (log : list Api.event) (pb : prediction_body) :
  label_classes g = [] ->
  predict parse g req = (log, {| status := 200; payload := Prediction pb |}) ->
  label pb = "Unknown"%string /\ 0 <= prediction pb /\ probabilities pb = ∅.
Proof.
  intros Hnil Hrun.
  destruct (predict_success_inv parse g req log pb Hrun)
    as (m & sc & d & vt & vc & vp & vh & scaled & preds & probas & probs
        & _ & _ & _ & _ & _ & _ & _ & _ & _ & _ & _ & _ & _ & _ & _ & _
        & Hlabel & _ & Hdict & _).
  rewrite Hnil in Hlabel, Hdict. cbn [length] in Hlabel. change (Z.of_nat 0) with 0 in Hlabel.
  destruct (Z.ltb_spec (prediction pb) 0) as [Hneg | Hpos].
  - rewrite list_getitem_nil in Hlabel. discriminate.
  - injection Hlabel as <-. auto.
Qed.

Lemma X5_no_class_names_witness :
  label unknown_body = "Unknown"%string
  /\ 0 <= prediction unknown_body
  /\ probabilities unknown_body = ∅.
Proof.
  apply (X5_no_class_names Demo.float_of_string (startup (inr without_classes))
           Demo.sample_request
           (fst (predict Demo.float_of_string (startup (inr without_classes))
                   Demo.sample_request))
           unknown_body).
  - reflexivity.
  - vm_compute. reflexivity.
Defined.

(** X6.  The bundle written by [save_model_bundle] loads: starting the
    service on it returns [True] and sets the classifier, the scaler and,
    as class names, the classes of the label encoder; the health response
    then reports both as loaded and the info response lists those class
    names. *)
Theorem X6_saved_bundle_loads
    (clf : Classifier) (sc : StandardScaler) (le : LabelEncoder) :
  let file := inr (save_model_bundle clf sc le) in
  load_model_bundle file initial_globals =
    ({| bundle := Some (save_model_bundle clf sc le); model := Some clf;
        scaler := Some sc; label_classes := classes_ le |}, true)
  /\ payload (health_check (startup file)) =
       Health {| status_text := "healthy"; model_loaded := true; scaler_loaded := true;
                 model_type := "AdaBoost + StandardScaler" |}
  /\ (exists i, payload (index (startup file)) = Info i /\ classes i = classes_ le).
Proof.
  cbv zeta. split_and!; [reflexivity | reflexivity |].
  eexists. split; reflexivity.
Qed.








Lemma first_missing_app (pre post : list string) (f : string) (data : json) :
  (forall f', In f' pre -> contains data f' = inr true) ->
  contains data f = inr false ->
  first_missing (pre ++ f :: post) data = inr (Some f).
Proof.
  intros Hpre Hf. induction pre as [|f0 pre IH]; cbn.
  - rewrite Hf. reflexivity.
  - rewrite (Hpre f0) by now left. apply IH. intros f' Hin. apply Hpre. now right.
Qed.

(** X9.  When a JSON object lacks several required fields, the 400
    response names the first absent one in the order temperature, co2,
    pm25, humidity, and no call is made. *)
Theorem X9_first_missing_field_is_named
    parse (g : globals) (m : Classifier) (sc : StandardScaler)
    (d : gmap string json) (pre post : list string) (f : string) :
  model g = Some m -> scaler g = Some sc ->
  ["temperature"; "co2"; "pm25"; "humidity"]%string = pre ++ f :: post ->
  (forall f', In f' pre -> is_Some (d !! f')) ->
  d !! f = None ->
  predict parse g (inr (JObj d)) =
    ([], {| status := 400; payload := Error (Literal ("Missing field: " ++ f)) |}).
Proof.
  intros Hm Hs Hfields Hpre Hnone.
  rewrite (predict_ready parse g m sc _ Hm Hs). unfold predict_loaded.
  rewrite bind_lift_inr. unfold required_fields. rewrite Hfields.
  rewrite (first_missing_app pre post f (JObj d)).
  - rewrite bind_lift_inr. reflexivity.
  - intros f' Hin. destruct (Hpre f' Hin) as [v Hv]. exact (contains_present d f' v Hv).
  - exact (contains_absent d f Hnone).
Qed.

Lemma X9_first_missing_field_is_named_witness :
  predict Demo.float_of_string Demo.ready (inr (JObj only_temperature)) =
    ([], {| status := 400; payload := Error (Literal ("Missing field: " ++ "co2")) |}).
Proof.
  apply (X9_first_missing_field_is_named Demo.float_of_string Demo.ready Demo.clf Demo.sc
           only_temperature ["temperature"%string] ["pm25"; "humidity"]%string "co2"%string).
  - reflexivity.
  - reflexivity.
  - reflexivity.
  - intros f' [<- | []]. eexists. vm_compute. reflexivity.
  - reflexivity.
Defined.

(** The loop that fills the probability dict, for any labels: a later
    entry for the same name overwrites an earlier one. *)
Lemma build_prob_dict_last (labels : list string) (probs : list float) :
  forall (i : nat) (d : gmap string float) (l : string) (p : float),
    build_prob_dict i labels probs d !! l = Some p <->
    (exists j, labels !! j = Some l /\ probs !! (i + j)%nat = Some p
               /\ forall j', (j < j')%nat -> labels !! j' = Some l ->
                             probs !! (i + j')%nat = None)
    \/ (d !! l = Some p
        /\ forall j, labels !! j = Some l -> probs !! (i + j)%nat = None).
Proof.
  induction labels as [|l0 rest IH]; intros i d l p; cbn [build_prob_dict].
  - split.
    + intros H. right. split; [exact H | intros j Hj; discriminate].
    + intros [(j & Hj & _) | [H _]]; [discriminate | exact H].
  - rewrite IH. split.
    + intros [(j & Hj & Hp & Hlast) | [Hd Hnone]].
      * left. exists (S j). split_and!; [exact Hj | |].
        -- replace (i + S j)%nat with (S i + j)%nat by lia. exact Hp.
        -- intros [|j'] Hlt Hj'; [lia |].
           replace (i + S j')%nat with (S i + j')%nat by lia.
           apply Hlast; [lia | exact Hj'].
      * destruct (probs !! i) as [p0|] eqn:Hi.
        -- destruct (decide (l0 = l)) as [-> | Hne].
           ++ rewrite lookup_insert_eq in Hd. injection Hd as ->.
              left. exists O. split_and!; [reflexivity | |].
              ** replace (i + 0)%nat with i by lia. exact Hi.
              ** intros [|j'] Hlt Hj'; [lia |].
                 replace (i + S j')%nat with (S i + j')%nat by lia. now apply Hnone.
           ++ rewrite lookup_insert_ne in Hd by exact Hne.
              right. split; [exact Hd |].
              intros [|j] Hj; [cbn in Hj; congruence |].
              replace (i + S j)%nat with (S i + j)%nat by lia. now apply Hnone.
        -- right. split; [exact Hd |].
           intros [|j] Hj.
           ++ replace (i + 0)%nat with i by lia. exact Hi.
           ++ replace (i + S j)%nat with (S i + j)%nat by lia. now apply Hnone.
    + intros [(j & Hj & Hp & Hlast) | [Hd Hnone]].
      * destruct j as [|j].
        -- cbn in Hj. injection Hj as ->.
           replace (i + 0)%nat with i in Hp by lia. rewrite Hp.
           right. split; [apply lookup_insert_eq |].
           intros j Hj. replace (S i + j)%nat with (i + S j)%nat by lia.
           apply Hlast; [lia | exact Hj].
        -- left. exists j. split_and!; [exact Hj | |].
           ++ replace (S i + j)%nat with (i + S j)%nat by lia. exact Hp.
           ++ intros j' Hlt Hj'. replace (S i + j')%nat with (i + S j')%nat by lia.
              apply Hlast; [lia | exact Hj'].
      * right. split.
        -- destruct (probs !! i) as [p0|] eqn:Hi; [| exact Hd].
           destruct (decide (l0 = l)) as [-> | Hne].
           ++ specialize (Hnone O eq_refl).
              replace (i + 0)%nat with i in Hnone by lia. congruence.
           ++ rewrite lookup_insert_ne by exact Hne. exact Hd.
        -- intros j Hj. replace (S i + j)%nat with (i + S j)%nat by lia.
           now apply Hnone.
Qed.

(** X10.  In every successful predict response, whatever the class names
    (repeated names included), a name is a key of [probabilities] exactly
    when it stands at an index below the length of the distribution, and
    its value is the entry of the distribution at the last such index. *)
Theorem X10_probabilities_last_entry_wins
    parse (g : globals) (req : result json) (log : list Api.event) (pb : prediction_body) :
  predict parse g req = (log, {| status := 200; payload := Prediction pb |}) ->
  exists (m : Classifier) (X probas : matrix) (probs : list float),
    model g = Some m
    /\ clf_predict_proba m X = inr probas
    /\ probas !! O = Some probs
    /\ forall l p,
         probabilities pb !! l = Some p <->
         exists j : nat,
           label_classes g !! j = Some l /\ probs !! j = Some p
           /\ forall j' : nat, (j < j')%nat -> (j' < length probs)%nat ->
                               label_classes g !! j' <> Some l.
Proof.
  intros Hrun.
  destruct (predict_success_inv parse g req log pb Hrun)
    as (m & sc & d & vt & vc & vp & vh & scaled & preds & probas & probs
        & Hm & _ & _ & _ & _ & _ & _ & _ & _ & _ & _ & _ & _ & _ & Hproba & Hrow
        & _ & _ & Hdict & _).
  exists m, scaled, probas, probs.
  split_and!; [exact Hm | exact Hproba | now apply list_getitem_0 |].
  intros l p. rewrite Hdict, build_prob_dict_last. cbn [Nat.add]. split.
  - intros [(j & Hj & Hp & Hlast) | [Hd _]]; [| rewrite lookup_empty in Hd; discriminate].
    exists j. split_and!; [exact Hj | exact Hp |].
    intros j' Hlt Hlen Hj'. specialize (Hlast j' Hlt Hj').
    apply lookup_ge_None in Hlast. lia.
  - intros (j & Hj & Hp & Hlast). left. exists j. split_and!; [exact Hj | exact Hp |].
    intros j' Hlt Hj'. apply lookup_ge_None.
    destruct (Nat.le_gt_cases (length probs) j') as [Hle | Hgt]; [exact Hle |].
    exfalso. exact (Hlast j' Hlt Hgt Hj').
Qed.

Lemma X10_probabilities_last_entry_wins_witness :
  exists (m : Classifier) (X probas : matrix) (probs : list float),
    model Demo.ready = Some m
    /\ clf_predict_proba m X = inr probas
    /\ probas !! O = Some probs
    /\ forall l p,
         probabilities sample_body !! l = Some p <->
         exists j : nat,
           label_classes Demo.ready !! j = Some l /\ probs !! j = Some p
           /\ forall j' : nat, (j < j')%nat -> (j' < length probs)%nat ->
                               label_classes Demo.ready !! j' <> Some l.
Proof.
  apply (X10_probabilities_last_entry_wins Demo.float_of_string Demo.ready
           Demo.sample_request
           (fst (predict Demo.float_of_string Demo.ready Demo.sample_request))
           sample_body).
  vm_compute. reflexivity.
Defined.

Lemma list_getitem_inr {A} (xs : list A) (i : Z) (x : A) :
  list_getitem xs i = inr x ->
  (0 <= i < Z.of_nat (length xs) /\ xs !! Z.to_nat i = Some x)
  \/ (- Z.of_nat (length xs) <= i < 0
      /\ xs !! Z.to_nat (Z.of_nat (length xs) + i) = Some x).
Proof.
  unfold list_getitem.
  destruct (Z.ltb_spec i 0) as [Hneg | Hpos].
  - destruct (Z.ltb_spec (i + Z.of_nat (length xs)) 0) as [? | Hge]; [discriminate |].
    destruct (Z.leb_spec (Z.of_nat (length xs)) (i + Z.of_nat (length xs)));
      [discriminate |].
    cbn [orb]. replace (i + Z.of_nat (length xs)) with (Z.of_nat (length xs) + i) by lia.
    destruct (xs !! Z.to_nat (Z.of_nat (length xs) + i)); [| discriminate].
    intros [= ->]. right. split; [lia | reflexivity].
  - destruct (Z.ltb_spec i 0) as [? | _]; [lia |].
    destruct (Z.leb_spec (Z.of_nat (length xs)) i); [discriminate |].
    cbn [orb]. destruct (xs !! Z.to_nat i); [| discriminate].
    intros [= ->]. left. split; [lia | reflexivity].
Qed.

(** X11.  In every successful predict response, with [n] class names and
    class index [k]: if [0 <= k < n] the label is the name at index [k];
    if [k >= n] the label is ["Unknown"]; and if [k < 0] then [-n <= k] and
    the label is the name at index [n + k], counted from the end. *)
Theorem X11_label_of_every_index
    parse (g : globals) (req : result json) (log : list Api.event) (pb : prediction_body) :
  predict parse g req = (log, {| status := 200; payload := Prediction pb |}) ->
  let n := Z.of_nat (length (label_classes g)) in
  let k := prediction pb in
  (0 <= k < n /\ label_classes g !! Z.to_nat k = Some (label pb))
  \/ (n <= k /\ label pb = "Unknown"%string)
  \/ (- n <= k < 0 /\ label_classes g !! Z.to_nat (n + k) = Some (label pb)).
Proof.
  intros Hrun. cbv zeta.
  destruct (predict_success_inv parse g req log pb Hrun)
    as (m & sc & d & vt & vc & vp & vh & scaled & preds & probas & probs
        & _ & _ & _ & _ & _ & _ & _ & _ & _ & _ & _ & _ & _ & _ & _ & _
        & Hlabel & _).
  destruct (Z.ltb_spec (prediction pb) (Z.of_nat (length (label_classes g))))
    as [Hlt | Hge].
  - apply list_getitem_inr in Hlabel as [H | H]; [left | right; right]; exact H.
  - injection Hlabel as <-. right. left. auto.
Qed.

Lemma X11_label_of_every_index_witness :
  let n := Z.of_nat (length (label_classes Demo.ready)) in
  let k := prediction sample_body in
  (0 <= k < n /\ label_classes Demo.ready !! Z.to_nat k = Some (label sample_body))
  \/ (n <= k /\ label sample_body = "Unknown"%string)
  \/ (- n <= k < 0
      /\ label_classes Demo.ready !! Z.to_nat (n + k) = Some (label sample_body)).
Proof.
  apply (X11_label_of_every_index Demo.float_of_string Demo.ready Demo.sample_request
           (fst (predict Demo.float_of_string Demo.ready Demo.sample_request))
           sample_body).
  vm_compute. reflexivity.
Defined.

(** X12.  A successful predict response is only given to a body that is a
    JSON object holding the four required fields, and its [input] object
    echoes, field by field, the floats that the four values coerced to
    (before scaling). *)
Theorem X12_input_is_echoed
    parse (g : globals) (req : result json) (log : list Api.event) (pb : prediction_body) :
  predict parse g req = (log, {| status := 200; payload := Prediction pb |}) ->
  exists d vt vc vp vh,
    req = inr (JObj d)
    /\ d !! "temperature"%string = Some vt /\ d !! "co2"%string = Some vc
    /\ d !! "pm25"%string = Some vp /\ d !! "humidity"%string = Some vh
    /\ to_float parse vt = inr (temperature (input pb))
    /\ to_float parse vc = inr (co2 (input pb))
    /\ to_float parse vp = inr (pm25 (input pb))
    /\ to_float parse vh = inr (humidity (input pb)).
Proof.
  intros Hrun.
  destruct (predict_success_inv parse g req log pb Hrun)
    as (m & sc & d & vt & vc & vp & vh & scaled & preds & probas & probs
        & _ & _ & Hreq & Ht & Hc & Hp & Hh & Hft & Hfc & Hfp & Hfh & _).
  exists d, vt, vc, vp, vh. split_and!; assumption.
Qed.

Lemma X12_input_is_echoed_witness :
  exists d vt vc vp vh,
    Demo.sample_request = inr (JObj d)
    /\ d !! "temperature"%string = Some vt /\ d !! "co2"%string = Some vc
    /\ d !! "pm25"%string = Some vp /\ d !! "humidity"%string = Some vh
    /\ to_float Demo.float_of_string vt = inr (temperature (input sample_body))
    /\ to_float Demo.float_of_string vc = inr (co2 (input sample_body))
    /\ to_float Demo.float_of_string vp = inr (pm25 (input sample_body))
    /\ to_float Demo.float_of_string vh = inr (humidity (input sample_body)).
Proof.
  apply (X12_input_is_echoed Demo.float_of_string Demo.ready Demo.sample_request
           (fst (predict Demo.float_of_string Demo.ready Demo.sample_request))
           sample_body).
  vm_compute. reflexivity.
Defined.

Lemma float_field_ret parse (data : json) (key : string) (x : float) :
  snd (float_field parse data key) = inr x ->
  exists d v, data = JObj d /\ d !! key = Some v /\ to_float parse v = inr x.
Proof.
  destruct (float_field parse data key) as [l r] eqn:H. cbn. intros ->.
  apply float_field_inv in H as (d & v & ? & ? & ? & _). eauto.
Qed.

Lemma fst_try_except {E A} (c : M E A) (h : exn -> A) :
  fst (try_except c h) = fst c.
Proof. destruct c as [l [e | a]]; reflexivity. Qed.

(** Follow an event through the body of the handler. *)
Ltac peel_handler H :=
  unfold predict_loaded in H; peel H; try not_this H;
  match type of H with
  | context [match ?o with Some _ => _ | None => _ end] =>
      is_var o; destruct o; [not_this H |]
  end;
  peel H;
  try (unfold float_field in H; peel H);
  try not_this H;
  repeat match goal with
         | Hr : snd (float_field _ _ _) = inr _ |- _ =>
             apply float_field_ret in Hr; destruct Hr as (? & ? & ? & ? & ?)
         end;
  subst;
  repeat match goal with
         | Heq : JObj _ = JObj _ |- _ => injection Heq as ->
         end.

(** X13.  In every predict call, whatever its outcome: the scaler is only
    called on the row of the four coerced values of a JSON object body, in
    the order temperature, co2, pm25, humidity; the classifier's predict is
    only called on a matrix the scaler returned; and its predict_proba is
    only called on a matrix for which predict had returned a first class
    index. *)
Theorem X13_calls_of_predict parse (g : globals) (req : result json) :
  let log := fst (predict parse g req) in
  (forall raw, In (EvTransform raw) log ->
     exists d vt vc vp vh t c p h,
       req = inr (JObj d)
       /\ d !! "temperature"%string = Some vt /\ d !! "co2"%string = Some vc
       /\ d !! "pm25"%string = Some vp /\ d !! "humidity"%string = Some vh
       /\ to_float parse vt = inr t /\ to_float parse vc = inr c
       /\ to_float parse vp = inr p /\ to_float parse vh = inr h
       /\ raw = [[t; c; p; h]])
  /\ (forall X, In (EvPredict X) log ->
       exists sc raw, scaler g = Some sc /\ transform sc raw = inr X)
  /\ (forall X, In (EvPredictProba X) log ->
       exists m preds k,
         model g = Some m /\ clf_predict m X = inr preds /\ preds !! O = Some k).
Proof.
  cbv zeta. unfold predict. rewrite fst_try_except.
  destruct (model g) as [m |]; [| split_and!; intros ? []].
  destruct (scaler g) as [sc |]; [| split_and!; intros ? []].
  split_and!.
  - intros raw Hin. peel_handler Hin.
    cbn in Hin. destruct Hin as [Heq | []]. injection Heq as <-.
    do 9 eexists. split_and!; try eassumption; reflexivity.
  - intros X Hin. peel_handler Hin.
    cbn in Hin. destruct Hin as [Heq | []]. injection Heq as <-.
    eauto.
  - intros X Hin. peel_handler Hin.
    cbn in Hin. destruct Hin as [Heq | []]. injection Heq as <-.
    do 3 eexists. split_and!; [reflexivity | eassumption |].
    eapply list_getitem_0. eassumption.
Qed.

(** A run of the handler in which every step succeeds. *)
Lemma predict_success_intro parse (g : globals) (m : Classifier) (sc : StandardScaler)
    (d : gmap string json) (vt vc vp vh : json) (t c p h : float)
    (scaled : matrix) (preds : list Z) (k : Z) (probas : matrix) (probs : list float)
    (lbl : string) (conf : float) :
  model g = Some m -> scaler g = Some sc ->
  d !! "temperature"%string = Some vt -> d !! "co2"%string = Some vc ->
  d !! "pm25"%string = Some vp -> d !! "humidity"%string = Some vh ->
  to_float parse vt = inr t -> to_float parse vc = inr c ->
  to_float parse vp = inr p -> to_float parse vh = inr h ->
  transform sc [[t; c; p; h]] = inr scaled ->
  clf_predict m scaled = inr preds -> list_getitem preds 0 = inr k ->
  clf_predict_proba m scaled = inr probas -> list_getitem probas 0 = inr probs ->
  (if k <? Z.of_nat (length (label_classes g))
   then list_getitem (label_classes g) k
   else inr "Unknown"%string) = inr lbl ->
  Py.max probs = inr conf ->
  predict parse g (inr (JObj d)) =
    ([EvFloat vt; EvFloat vc; EvFloat vp; EvFloat vh;
      EvTransform [[t; c; p; h]]; EvPredict scaled; EvPredictProba scaled],
     {| status := 200;
        payload := Prediction
          {| prediction := k; label := lbl; confidence := conf;
             probabilities := build_prob_dict 0 (label_classes g) probs ∅;
             input := {| temperature := t; co2 := c; pm25 := p; humidity := h |} |} |}).
Proof.
  intros Hm Hs Ht Hc Hp Hh Hft Hfc Hfp Hfh Htr Hpred Hk Hproba Hrow Hlbl Hmax.
  rewrite (predict_ready parse g m sc _ Hm Hs).
  rewrite predict_loaded_body.
  2:{ apply first_missing_none. intros f [<- | [<- | [<- | [<- | []]]]]; eauto. }
  rewrite (extract_values_ok parse d vt vc vp vh t c p h) by assumption.
  rewrite bind_inr. unfold classify. cbn zeta.
  cbn [temperature co2 pm25 humidity].
  rewrite Htr. cbn [bind emit lift app fst snd].
  rewrite Hpred. cbn [bind emit lift app fst snd].
  rewrite Hk. cbn [bind emit lift app fst snd].
  rewrite Hproba. cbn [bind emit lift app fst snd].
  rewrite Hrow. cbn [bind emit lift app fst snd].
  rewrite Hlbl. cbn [bind emit lift app fst snd].
  rewrite Hmax. reflexivity.
Qed.

Import MainDemo.

(** X14.  [load_and_prepare_data] returns a frame exactly when the file
    could be read and has an Air_Quality_Label column; the frame is the one
    read, the feature columns are not looked at, and the only call is the
    reading of the file.  Every file on which the trainer reaches its label
    encoding is accepted, with the same label column. *)
Theorem X14_load_and_prepare_data (lib : Library) (path : string) :
  (forall log df,
     load_and_prepare_data lib path = (log, inr df) <->
     log = [EvReadCsv path] /\ read_csv lib path = inr df
     /\ has_column df "Air_Quality_Label" = true)
  /\ (forall labels,
        In (EvLabelFit labels) (fst (train_adaboost_model lib path)) ->
        exists df,
          load_and_prepare_data lib path = ([EvReadCsv path], inr df)
          /\ column df "Air_Quality_Label" = Some labels).
Proof.
  assert (Hok : forall df labels,
            read_csv lib path = inr df -> column df "Air_Quality_Label" = Some labels ->
            load_and_prepare_data lib path = ([EvReadCsv path], inr df)).
  { intros df labels Hread Hcol. unfold load_and_prepare_data.
    rewrite bind_emit, Hread, ApiLemmas.bind_lift_inr.
    unfold getitem_column, label_column. rewrite Hcol. reflexivity. }
  split.
  - intros log df. split.
    + intros H. unfold load_and_prepare_data in H. invert_pairs H.
      apply ApiLemmas.ret_inv in H as [-> ->]. subst. cbn [app].
      split_and!; [reflexivity | assumption |].
      match goal with
      | Hc : getitem_column _ _ = inr _ |- _ =>
          unfold getitem_column, label_column in Hc; unfold has_column
      end.
      destruct (column df "Air_Quality_Label"); [reflexivity | discriminate].
    + intros (-> & Hread & Hhas). unfold has_column in Hhas.
      destruct (column df "Air_Quality_Label") as [labels |] eqn:Hcol; [| discriminate].
      exact (Hok df labels Hread Hcol).
  - intros labels Hin. peel_trainer Hin.
    cbn in Hin. destruct Hin as [Heq | []]. injection Heq as <-.
    match goal with
    | Hl : getitem_column ?df _ = inr ?labels |- _ =>
        unfold getitem_column, label_column in Hl;
        destruct (column df "Air_Quality_Label") as [col |] eqn:Hcol;
        [injection Hl as -> | discriminate];
        exists df
    end.
    split; [| assumption]. eapply Hok; eassumption.
Qed.

(** The percentage loop completes only when the distribution reaches
    every class, and then lists every class with its entry times 100. *)
Lemma percentages_inr (classes : list string) (row : list float) :
  forall (i : nat) (ps : list (string * float)),
    percentages i classes row = inr ps ->
    forall (j : nat) (cls : string),
      classes !! j = Some cls ->
      exists p, row !! (i + j)%nat = Some p /\ ps !! j = Some (cls, (p * 100)%float).
Proof.
  induction classes as [|c0 rest IH]; intros i ps Hps j cls Hj; [discriminate |].
  cbn [percentages] in Hps.
  destruct (list_getitem row (Z.of_nat i)) as [e | p0] eqn:Hrow; [discriminate |].
  destruct (percentages (S i) rest row) as [e | ps'] eqn:Hrest; [discriminate |].
  injection Hps as <-.
  destruct j as [|j].
  - cbn in Hj. injection Hj as ->. exists p0. split; [| reflexivity].
    apply list_getitem_inr in Hrow as [[_ Hrow] | [Hneg _]]; [| lia].
    rewrite Nat2Z.id in Hrow. replace (i + 0)%nat with i by lia. exact Hrow.
  - destruct (IH (S i) ps' Hrest j cls Hj) as (p & Hp & Hpsj).
    exists p. replace (i + S j)%nat with (S i + j)%nat by lia. auto.
Qed.

Lemma percentages_short (classes : list string) (row : list float) :
  forall i : nat,
    (i <= length row)%nat ->
    (length row < i + length classes)%nat ->
    percentages i classes row = inl IndexError.
Proof.
  induction classes as [|c0 rest IH]; intros i Hi Hlen; cbn [length] in Hlen; [lia |].
  cbn [percentages].
  destruct (list_getitem row (Z.of_nat i)) as [e | p0] eqn:Hrow.
  - unfold list_getitem in Hrow.
    destruct (Z.ltb_spec (Z.of_nat i) 0) as [? | _]; [lia |].
    destruct (_ || _); [injection Hrow as <-; reflexivity |].
    destruct (row !! _); [discriminate | injection Hrow as <-; reflexivity].
  - apply list_getitem_inr in Hrow as [[Hb _] | [Hneg _]]; [| lia].
    rewrite IH; [reflexivity | lia | lia].
Qed.

Lemma build_prob_dict_keeps (labels : list string) (probs : list float) :
  forall (i : nat) (d : gmap string float) (l : string),
    is_Some (d !! l) -> is_Some (build_prob_dict i labels probs d !! l).
Proof.
  induction labels as [|l0 rest IH]; intros i d l Hd; cbn [build_prob_dict]; [exact Hd |].
  apply IH. destruct (probs !! i); [| exact Hd].
  destruct (decide (l0 = l)) as [-> | Hne].
  - rewrite lookup_insert_eq. eauto.
  - rewrite lookup_insert_ne by exact Hne. exact Hd.
Qed.

Lemma build_prob_dict_covers (labels : list string) (probs : list float) :
  forall (i : nat) (d : gmap string float) (l : string) (j : nat),
    labels !! j = Some l -> is_Some (probs !! (i + j)%nat) ->
    is_Some (build_prob_dict i labels probs d !! l).
Proof.
  induction labels as [|l0 rest IH]; intros i d l j Hj Hp; [discriminate |].
  cbn [build_prob_dict]. destruct j as [|j].
  - cbn in Hj. injection Hj as ->. replace (i + 0)%nat with i in Hp by lia.
    destruct Hp as [p Hp]. rewrite Hp. apply build_prob_dict_keeps.
    rewrite lookup_insert_eq. eauto.
  - apply (IH (S i) _ l j Hj). replace (S i + j)%nat with (i + S j)%nat by lia. exact Hp.
Qed.

(** X15.  When the main block of the trainer completes, the service
    started on the bundle it saved answers the request
    [{temperature: 26.5, co2: 450, pm25: 35, humidity: 65}] with a 200
    response: after the four coercions it makes the same scaler and
    classifier calls as the test prediction, its label is the printed class
    name, the printed confidence is its confidence times 100, and every
    class of the label encoder has an entry in its probabilities. *)
Theorem X15_test_prediction_agrees_with_service
    parse (lib : Library) (tlog : list Trainer.event) (plog : list Api.event)
    (out : test_output) :
  main lib = (tlog, plog, inr out) ->
  exists clf sc le pb,
    train_adaboost_model lib "air_quality_with_labels.csv" = (tlog, inr (clf, sc, le))
    /\ predict parse (startup (inr (save_model_bundle clf sc le))) Demo.sample_request =
         ([EvFloat (JFloat 26.5); EvFloat (JInt 450); EvFloat (JInt 35);
           EvFloat (JInt 65)] ++ plog,
          {| status := 200; payload := Prediction pb |})
    /\ label pb = out_label out
    /\ out_confidence out = (confidence pb * 100)%float
    /\ (forall cls, In cls (classes_ le) -> is_Some (probabilities pb !! cls)).
Proof.
  intros Hmain. unfold main in Hmain.
  destruct (train_adaboost_model lib "air_quality_with_labels.csv")
    as [tlog' [e | [[clf sc] le]]]; [discriminate |].
  destruct (test_prediction (save_model_bundle clf sc le)) as [plog' r] eqn:Htest.
  injection Hmain as -> -> ->.
  unfold test_prediction in Htest. cbn zeta in Htest.
  cbn [save_model_bundle bd_scaler bd_model bd_classes bundle_getitem] in Htest.
  invert_pairs Htest.
  apply ApiLemmas.ret_inv in Htest as [<- ->]. subst. cbn [app] in *.
  repeat match goal with
         | Heq : inr _ = inr _ |- _ => injection Heq as <-
         end.
  match goal with
  | Hname : list_getitem (classes_ le) ?k = inr ?name,
    Hmax : Py.max ?row = inr ?top |- _ =>
      exists clf, sc, le,
        {| prediction := k; label := name; confidence := top;
           probabilities := build_prob_dict 0 (classes_ le) row ∅;
           input := {| temperature := 26.5; co2 := 450; pm25 := 35; humidity := 65 |} |}
  end.
  split_and!; [reflexivity | | reflexivity | reflexivity |].
  - eapply (predict_success_intro parse
              (startup (inr (save_model_bundle clf sc le))) clf sc Demo.sample_fields
              (JFloat 26.5) (JInt 450) (JInt 35) (JInt 65) 26.5 450 35 65);
      try reflexivity; try eassumption.
    cbn [startup load_model_bundle save_model_bundle bd_model bd_scaler bd_classes
           bd_feature_names fst label_classes].
    match goal with
    | Hname : list_getitem (classes_ le) ?k = inr _ |- _ =>
        pose proof (list_getitem_inr _ _ _ Hname) as Hbound;
        destruct (Z.ltb_spec k (Z.of_nat (length (classes_ le)))) as [_ | Hge];
        [exact Hname | lia]
    end.
  - intros cls Hin. cbn [probabilities].
    apply list_elem_of_In, list_elem_of_lookup in Hin as [j Hj].
    match goal with
    | Hps : percentages 0 (classes_ le) ?row = inr _ |- _ =>
        destruct (percentages_inr _ _ _ _ Hps j cls Hj) as (p & Hp & _)
    end.
    eapply build_prob_dict_covers; [exact Hj | eauto].
Qed.

Lemma X15_test_prediction_agrees_with_service_witness :
  exists clf sc le pb,
    train_adaboost_model Demo.lib "air_quality_with_labels.csv"
      = (fst (fst (main Demo.lib)), inr (clf, sc, le))
    /\ predict Demo.float_of_string (startup (inr (save_model_bundle clf sc le)))
         Demo.sample_request =
         ([EvFloat (JFloat 26.5); EvFloat (JInt 450); EvFloat (JInt 35);
           EvFloat (JInt 65)] ++ snd (fst (main Demo.lib)),
          {| status := 200; payload := Prediction pb |})
    /\ label pb = out_label printed
    /\ out_confidence printed = (confidence pb * 100)%float
    /\ (forall cls, In cls (classes_ le) -> is_Some (probabilities pb !! cls)).
Proof.
  apply (X15_test_prediction_agrees_with_service Demo.float_of_string Demo.lib).
  vm_compute. reflexivity.
Defined.

(** X16.  The test prediction of the main block is stricter than the
    service: when the bundle holds more class names than the distribution
    has entries, its percentage loop raises [IndexError] after the three
    library calls, although the class name and the confidence could be
    computed. *)
Theorem X16_test_prediction_needs_full_distribution
    (b : bundle_dict) (m : Classifier) (sc : StandardScaler) (classes : list string)
    (scaled : matrix) (preds : list Z) (k : Z) (name : string)
    (probas : matrix) (row : list float) (top : float) :
  bd_model b = Some m -> bd_scaler b = Some sc -> bd_classes b = Some classes ->
  transform sc [[26.5; 450; 35; 65]]%float = inr scaled ->
  clf_predict m scaled = inr preds -> list_getitem preds 0 = inr k ->
  list_getitem classes k = inr name ->
  clf_predict_proba m scaled = inr probas -> list_getitem probas 0 = inr row ->
  Py.max row = inr top ->
  (length row < length classes)%nat ->
  test_prediction b =
    ([EvTransform [[26.5; 450; 35; 65]]%float; EvPredict scaled; EvPredictProba scaled],
     inl IndexError).
Proof.
  intros Hm Hs Hc Htr Hpred Hk Hname Hproba Hrow Hmax Hshort.
  unfold test_prediction. cbn zeta. rewrite Hm, Hs, Hc.
  cbn [bundle_getitem bind emit lift app fst snd].
  rewrite Htr. cbn [bind emit lift app fst snd].
  rewrite Hpred. cbn [bind emit lift app fst snd].
  rewrite Hproba. cbn [bind emit lift app fst snd].
  rewrite Hk. cbn [bind emit lift app fst snd].
  rewrite Hname. cbn [bind emit lift app fst snd].
  rewrite Hrow. cbn [bind emit lift app fst snd].
  rewrite Hmax. cbn [bind emit lift app fst snd].
  rewrite (percentages_short classes row 0) by (cbn; lia).
  reflexivity.
Qed.

Lemma X16_test_prediction_needs_full_distribution_witness :
  test_prediction short_bundle =
    ([EvTransform [[26.5; 450; 35; 65]]%float;
      EvPredict [[0.75; -0.5; 0.5; 1]]%float;
      EvPredictProba [[0.75; -0.5; 0.5; 1]]%float],
     inl IndexError).
Proof.
  apply (X16_test_prediction_needs_full_distribution short_bundle short_clf Demo.sc
           Demo.labels [[0.75; -0.5; 0.5; 1]]%float [0] 0 "TCI Comfort & IAQI Good"
           [[1%float]] [1%float] 1%float); try reflexivity.
  cbn. lia.
Defined.

(** X17.  A body that is a JSON array or a JSON string passes the
    validation loop when every required field name is one of its elements
    (for an array) or one of its substrings (for a string); the handler
    then fails at the first lookup by name and answers 500 with the text of
    a [TypeError], before any coercion. *)
Theorem X17_array_or_string_body
    parse (g : globals) (m : Classifier) (sc : StandardScaler) (data : json) :
  model g = Some m -> scaler g = Some sc ->
  (exists l, data = JArr l) \/ (exists s, data = JStr s) ->
  (forall f, In f required_fields -> contains data f = inr true) ->
  predict parse g (inr data) =
    ([], {| status := 500; payload := Error (StrOf TypeError) |}).
Proof.
  intros Hm Hs Hkind Hall.
  rewrite (predict_ready parse g m sc _ Hm Hs). unfold predict_loaded.
  rewrite bind_lift_inr.
  assert (Hnone : first_missing required_fields data = inr None).
  { unfold required_fields in *. cbn [first_missing].
    rewrite !Hall by (cbn; tauto). reflexivity. }
  rewrite Hnone, bind_lift_inr.
  destruct Hkind as [[l ->] | [s ->]]; reflexivity.
Qed.

Lemma X17_array_or_string_body_witness :
  predict Demo.float_of_string Demo.ready (inr names_array) =
    ([], {| status := 500; payload := Error (StrOf TypeError) |}).
Proof.
  apply (X17_array_or_string_body Demo.float_of_string Demo.ready Demo.clf Demo.sc
           names_array).
  - reflexivity.
  - reflexivity.
  - left. eexists. reflexivity.
  - intros f [<- | [<- | [<- | [<- | []]]]]; reflexivity.
Defined.
